(** * NotebookComplete order form (src/src/App.tsx)

    A shallow embedding of the logic of the [NotebookCompleteApp] component:
    the plan catalogue [PLAN_PRICES], the memoised quote [estimatedPrice],
    [validateForm] and [handleSubmit], which serialises the order into a
    WhatsApp deep link.

    JavaScript values are modelled as the language has them: a string is a
    sequence of UTF-16 code units, a number is an IEEE 754 binary64 float,
    an object used as a dictionary is a finite map whose misses fall
    through to [Object.prototype]. *)

From Stdlib Require Import ZArith NArith List Ascii String Floats Uint63 Lia.
From stdpp Require Import gmap strings list fin_maps.

Local Open Scope N_scope.

(** ** Strings *)

(** A JavaScript string: its UTF-16 code units. *)
Abbreviation jsstring := (list N).

Module Utf.

Definition bytes (s : string) : list N :=
  map (fun a => N_of_ascii a) (list_ascii_of_string s).

(** Code points of a UTF-8 byte sequence (source literals are well-formed). *)
Fixpoint code_points (bs : list N) : list N :=
  match bs with
  | [] => []
  | b :: r =>
      if b <? 128 then b :: code_points r
      else if b <? 224 then
        match r with
        | c1 :: r1 => (N.land b 31 * 64 + N.land c1 63) :: code_points r1
        | _ => []
        end
      else if b <? 240 then
        match r with
        | c1 :: c2 :: r2 =>
            (N.land b 15 * 4096 + N.land c1 63 * 64 + N.land c2 63)
              :: code_points r2
        | _ => []
        end
      else
        match r with
        | c1 :: c2 :: c3 :: r3 =>
            (N.land b 7 * 262144 + N.land c1 63 * 4096
             + N.land c2 63 * 64 + N.land c3 63) :: code_points r3
        | _ => []
        end
  end.

(** UTF-16 encoding of one code point: itself, or a surrogate pair. *)
Definition units (cp : N) : list N :=
  if cp <? 65536 then [cp]
  else [55296 + (cp - 65536) / 1024; 56320 + (cp - 65536) mod 1024].

Definition utf16 (cps : list N) : list N := flat_map units cps.

End Utf.

(** The string a source literal denotes. *)
Definition u16 (s : string) : jsstring := Utf.utf16 (Utf.code_points (Utf.bytes s)).

(** [a || b] on strings: the empty string is the only falsy one. *)
Definition or_else (a b : jsstring) : jsstring :=
  match a with
  | [] => b
  | _ :: _ => a
  end.

(** WhiteSpace and LineTerminator code units, the ones [trim] strips. *)
Definition is_white_space (c : N) : bool :=
  (c =? 9) || (c =? 10) || (c =? 11) || (c =? 12) || (c =? 13) || (c =? 32)
  || (c =? 160) || (c =? 5760) || ((8192 <=? c) && (c <=? 8202))
  || (c =? 8232) || (c =? 8233) || (c =? 8239) || (c =? 8287)
  || (c =? 12288) || (c =? 65279).

Fixpoint trimStart (s : jsstring) : jsstring :=
  match s with
  | [] => []
  | c :: r => if is_white_space c then trimStart r else s
  end.

Definition trimEnd (s : jsstring) : jsstring := rev (trimStart (rev s)).

(** [String.prototype.trim]. *)
Definition trim (s : jsstring) : jsstring := trimEnd (trimStart s).

Definition is_digit (c : N) : bool := (48 <=? c) && (c <=? 57).

(** [/^\d{10}$/.test(s)]: without the [m] flag the anchors are the two ends
    of the input, and [\d] is [0-9]. *)
Definition test_ten_digits (s : jsstring) : bool :=
  (length s =? 10)%nat && forallb is_digit s.

(** [hay.includes(needle)]. *)
Fixpoint starts_with (needle hay : jsstring) : bool :=
  match needle, hay with
  | [], _ => true
  | _ :: _, [] => false
  | a :: n, b :: h => (a =? b) && starts_with n h
  end.

Fixpoint includes (needle hay : jsstring) : bool :=
  starts_with needle hay
  || match hay with
     | [] => false
     | _ :: h => includes needle h
     end.

(** No [%] in the string. *)
Definition no_percent (s : jsstring) : bool := forallb (λ c, negb (c =? 37)) s.

(** Ten ASCII decimal digits, and nothing else. *)
Definition ten_digits (s : jsstring) : Prop :=
  length s = 10%nat ∧ Forall (λ c, 48 ≤ c ≤ 57) s.

(** ** Numbers *)

Module Num.

(** The integer a float denotes, when it denotes one. *)
Definition to_Z (x : float) : option Z :=
  match Prim2SF x with
  | S754_zero _ => Some 0%Z
  | S754_finite s m e =>
      let v := if (0 <=? e)%Z then (Z.pos m * 2 ^ e)%Z
               else (Z.pos m / 2 ^ (- e))%Z in
      if (0 <=? e)%Z || (Z.pos m mod 2 ^ (- e) =? 0)%Z
      then Some (if s then (- v)%Z else v)
      else None
  | _ => None
  end.

(** The float of an integer below 2^63 in magnitude. *)
Definition of_Z (z : Z) : float :=
  if (z <? 0)%Z then PrimFloat.opp (PrimFloat.of_uint63 (Uint63.of_Z (- z)))
  else PrimFloat.of_uint63 (Uint63.of_Z z).

(** floor (x + 1/2) of a finite non-zero float [(-1)^s * m * 2^e]. *)
Definition round_half_up (s : bool) (m : positive) (e : Z) : Z :=
  let n := if s then Z.neg m else Z.pos m in
  if (0 <=? e)%Z then (n * 2 ^ e)%Z
  else ((2 * n + 2 ^ (- e)) / 2 ^ (- e + 1))%Z.

(** [Math.round]: the closest integer, a tie going towards +Infinity;
    NaN, the infinities and the zeros are returned as they are, and a
    result of zero keeps the sign of the argument. *)
Definition Math_round (x : float) : float :=
  match Prim2SF x with
  | S754_finite s m e =>
      let z := round_half_up s m e in
      if (z =? 0)%Z then (if s then PrimFloat.neg_zero else PrimFloat.zero)
      else if (0 <=? e)%Z then x
      else of_Z z
  | _ => x
  end.

Fixpoint digits_fuel (fuel : nat) (n : N) (acc : jsstring) : jsstring :=
  match fuel with
  | O => acc
  | S k =>
      let acc' := (48 + n mod 10) :: acc in
      if n / 10 =? 0 then acc' else digits_fuel k (n / 10) acc'
  end.

(** Decimal digits of a natural number. *)
Definition digits (n : N) : jsstring := digits_fuel (S (N.to_nat (N.log2 n))) n [].

End Num.

(** A value read out of an object: a number, or one of the built-in
    functions and objects that every object inherits, named by the property
    it was read from. *)
Inductive value :=
  | VNumber (x : float)
  | VObject (property : jsstring).

(** [ToNumber]: a built-in function or plain object converts to NaN. *)
Definition ToNumber (v : value) : float :=
  match v with
  | VNumber x => x
  | VObject _ => PrimFloat.nan
  end.

(** [a ?? b]: [b] when [a] is undefined (or null). *)
Definition nullish {A} (a : option A) (b : A) : A :=
  match a with
  | Some x => x
  | None => b
  end.

Infix "??" := nullish (at level 45, left associativity).

(** ** Constants and types *)

Definition PLAN_PRICES : gmap jsstring float :=
  <[u16 "Single (₹199)" := 199%float]>
  (<[u16 "3-Month (₹499)" := 499%float]>
  (<[u16 "6-Month (₹999)" := 999%float]>
  (<[u16 "12-Month (₹1999)" := 1999%float]> ∅))).

(** The properties of [Object.prototype], which an object literal inherits. *)
Definition Object_prototype : list jsstring :=
  map u16
    ["constructor"; "hasOwnProperty"; "isPrototypeOf"; "propertyIsEnumerable";
     "toLocaleString"; "toString"; "valueOf"; "__proto__";
     "__defineGetter__"; "__defineSetter__"; "__lookupGetter__";
     "__lookupSetter__"]%string.

(** [PLAN_PRICES[key]]: an own property, else an inherited one, else
    undefined. *)
Definition PLAN_PRICES_get (key : jsstring) : option value :=
  match PLAN_PRICES !! key with
  | Some x => Some (VNumber x)
  | None =>
      if bool_decide (key ∈ Object_prototype) then Some (VObject key) else None
  end.

Module File.
(** Of a selected [File] only the name is read. *)
Record t := { name : jsstring }.
End File.

Record FormState := {
  name : jsstring;
  phone : jsstring;
  college : jsstring;
  className : jsstring;
  subject : jsstring;
  pages : float;
  file : option File.t;
  notes : jsstring;
  address : jsstring;
  plan : jsstring;
  withDiagrams : bool;
}.

(** ** The quote *)

(** The callback of the [useMemo] behind [estimatedPrice]. The literal [1.2]
    denotes the binary64 number 0x1.3333333333333p+0. *)
Definition estimatedPrice (form : FormState) : value :=
  let basePrice := PLAN_PRICES_get (plan form) ?? VNumber 199%float in
  if withDiagrams form
  then VNumber (Num.Math_round (ToNumber basePrice * 0x1.3333333333333p+0)%float)
  else basePrice.

(** [useMemo(f, [form.plan, form.withDiagrams])]: the value of the last
    render is kept while the two dependencies are unchanged. *)
Definition memo := option (jsstring * bool * value).

Definition useMemo_estimatedPrice (cache : memo) (form : FormState) : value * memo :=
  match cache with
  | Some (p, d, v) =>
      if bool_decide (p = plan form) && Bool.eqb d (withDiagrams form)
      then (v, cache)
      else (estimatedPrice form, Some (plan form, withDiagrams form, estimatedPrice form))
  | None => (estimatedPrice form, Some (plan form, withDiagrams form, estimatedPrice form))
  end.

(** ** Validation *)

(** The [newErrors] object that [validateForm] fills in. *)
Definition newErrors (form : FormState) : gmap string (option jsstring) :=
  let e0 : gmap string (option jsstring) := ∅ in
  let e1 :=
    match trim (name form) with
    | [] => <["name"%string := Some (u16 "Name is required.")]> e0
    | _ :: _ => e0
    end in
  let e2 :=
    if negb (test_ten_digits (trim (phone form)))
    then <["phone"%string := Some (u16 "Enter a valid 10-digit phone.")]> e1
    else e1 in
  if PrimFloat.is_nan (pages form) || (pages form <? 1)%float
  then <["pages"%string := Some (u16 "Pages must be at least 1.")]> e2
  else e2.

(** ** The component and its surroundings *)

(** The callback handed to [setTimeout]: [() => setIsSubmitting(false)]. *)
Inductive callback := reset_isSubmitting.

(** The state of the component in one render ([form], [quote], [errors],
    [isSubmitting]), the submit event being handled, the windows opened and
    the timers set so far. *)
Record World := {
  form : FormState;
  quote : option value;
  errors : gmap string (option jsstring);
  isSubmitting : bool;
  defaultPrevented : bool;
  opened : list (jsstring * jsstring);
  timers : list (callback * N);
}.

(** Handlers run in the state monad over [World]; nothing in them throws. *)
Definition M (A : Type) : Type := World → A * World.

Definition ret {A} (a : A) : M A := λ w, (a, w).
Definition bind {A B} (m : M A) (k : A → M B) : M B :=
  λ w, let (a, w') := m w in k a w'.

Notation "x <- m ;; k" := (bind m (λ x, k))
  (at level 100, m at next level, right associativity).
Notation "m ;; k" := (bind m (λ _, k))
  (at level 100, right associativity).

Definition getForm : M FormState := λ w, (form w, w).

Definition setErrors (e : gmap string (option jsstring)) : M unit :=
  λ w, (tt, {| form := form w; quote := quote w; errors := e;
               isSubmitting := isSubmitting w;
               defaultPrevented := defaultPrevented w;
               opened := opened w; timers := timers w |}).

Definition setIsSubmitting (b : bool) : M unit :=
  λ w, (tt, {| form := form w; quote := quote w; errors := errors w;
               isSubmitting := b;
               defaultPrevented := defaultPrevented w;
               opened := opened w; timers := timers w |}).

Definition preventDefault : M unit :=
  λ w, (tt, {| form := form w; quote := quote w; errors := errors w;
               isSubmitting := isSubmitting w;
               defaultPrevented := true;
               opened := opened w; timers := timers w |}).

Definition window_open (url target : jsstring) : M unit :=
  λ w, (tt, {| form := form w; quote := quote w; errors := errors w;
               isSubmitting := isSubmitting w;
               defaultPrevented := defaultPrevented w;
               opened := opened w ++ [(url, target)]; timers := timers w |}).

Definition setTimeout (f : callback) (delay : N) : M unit :=
  λ w, (tt, {| form := form w; quote := quote w; errors := errors w;
               isSubmitting := isSubmitting w;
               defaultPrevented := defaultPrevented w;
               opened := opened w; timers := timers w ++ [(f, delay)] |}).

Definition validateForm : M bool :=
  form <- getForm ;;
  let newErrors := newErrors form in
  setErrors newErrors ;;
  ret (bool_decide (size newErrors = 0%nat)).

(** ** The order message *)

Section Message.

(** [Number::toString] away from the integers of magnitude at most 2^53
    (the shortest digits that read back as the same float), and the text
    of a built-in function or object: both are the engine's. *)
Variable Number_toString_other : float → jsstring.
Variable Object_toString : jsstring → jsstring.

Definition Number_toString (x : float) : jsstring :=
  if PrimFloat.is_nan x then u16 "NaN"
  else if (x =? PrimFloat.infinity)%float then u16 "Infinity"
  else if (x =? PrimFloat.neg_infinity)%float then u16 "-Infinity"
  else
    match Num.to_Z x with
    | Some z =>
        if (Z.abs z <=? 2 ^ 53)%Z
        then (if (z <? 0)%Z then u16 "-" else []) ++ Num.digits (Z.abs_N z)
        else Number_toString_other x
    | None => Number_toString_other x
    end.

(** [`${v}`]. *)
Definition ToString (v : value) : jsstring :=
  match v with
  | VNumber x => Number_toString x
  | VObject p => Object_toString p
  end.

Definition diagramsMsg (form : FormState) : jsstring :=
  if withDiagrams form then u16 "YES (+20% markup included)"
  else u16 "NO (Base price)".

Definition fileMsg (form : FormState) : jsstring :=
  match file form with
  | Some f =>
      u16 "📎 File: " ++ File.name f
      ++ u16 ". *Please upload this file in our chat after sending this message.*"
  | None =>
      u16 "📎 File: None selected. *Please upload your syllabus/content in our chat.*"
  end.

(** The template of [msg], with the line break [nl] in place of the
    [%0A] the source writes. *)
Definition message (nl : jsstring) (form : FormState) (price : value) : jsstring :=
  u16 "*NotebookComplete Order*" ++ nl ++ nl
  ++ u16 "👤 Name: " ++ name form ++ nl
  ++ u16 "📞 Phone: " ++ phone form ++ nl
  ++ u16 " 🏠 Address: " ++ or_else (address form) (u16 "—") ++ nl
  ++ u16 " 🏫 College: " ++ or_else (college form) (u16 "—") ++ nl
  ++ u16 "📚 Class: " ++ or_else (className form) (u16 "—") ++ nl
  ++ u16 "📘 Subject: " ++ or_else (subject form) (u16 "—") ++ nl
  ++ u16 "📄 Pages: " ++ Number_toString (pages form) ++ nl
  ++ u16 "🎨 Diagrams/Printouts: " ++ diagramsMsg form ++ nl
  ++ u16 "💰 Plan: " ++ plan form ++ nl
  ++ u16 "📝 Notes: " ++ or_else (notes form) (u16 "—") ++ nl
  ++ u16 "💵 Estimated Price: ₹" ++ ToString price ++ nl ++ nl
  ++ fileMsg form ++ nl ++ nl
  ++ u16 "Please confirm availability and final quote.".

(** [msg] as [handleSubmit] builds it; its [price] is [estimatedPrice], the
    memoised quote of the render the handler belongs to. *)
Definition msg (form : FormState) : jsstring :=
  message (u16 "%0A") form (estimatedPrice form).

(** The text the link is to carry, before any encoding: the lines of [msg]
    with line feeds between them. *)
Definition text (form : FormState) : jsstring :=
  message [10] form (estimatedPrice form).

(** No [%] in any of the pieces the template puts between its labels. *)
Definition percent_free (form : FormState) : bool :=
  no_percent (name form) && no_percent (phone form)
  && no_percent (or_else (address form) (u16 "—"))
  && no_percent (or_else (college form) (u16 "—"))
  && no_percent (or_else (className form) (u16 "—"))
  && no_percent (or_else (subject form) (u16 "—"))
  && no_percent (Number_toString (pages form))
  && no_percent (diagramsMsg form)
  && no_percent (plan form)
  && no_percent (or_else (notes form) (u16 "—"))
  && no_percent (ToString (estimatedPrice form))
  && no_percent (fileMsg form).

Definition whatsappUrl (form : FormState) : jsstring :=
  u16 "https://wa.me/911234567890?text=" ++ msg form.

Definition handleSubmit : M unit :=
  preventDefault ;;
  valid <- validateForm ;;
  if negb valid then ret tt
  else
    setIsSubmitting true ;;
    form <- getForm ;;
    window_open (whatsappUrl form) (u16 "_blank") ;;
    setTimeout reset_isSubmitting 1000.

End Message.

(** ** Percent-decoding *)

(** [decodeURIComponent], the inverse the deep link's reader applies to the
    [text] parameter: [None] stands for the URIError it throws. *)
Module URI.

Definition hex (c : N) : option N :=
  if (48 <=? c) && (c <=? 57) then Some (c - 48)
  else if (65 <=? c) && (c <=? 70) then Some (c - 55)
  else if (97 <=? c) && (c <=? 102) then Some (c - 87)
  else None.

(** A code unit standing for itself, or the octet of a [%XX] escape. *)
Inductive token :=
  | Unit (c : N)
  | Octet (b : N).

Fixpoint tokens (s : jsstring) : option (list token) :=
  match s with
  | [] => Some []
  | c :: r =>
      if c =? 37 then
        match r with
        | h1 :: h2 :: r' =>
            match hex h1, hex h2, tokens r' with
            | Some a, Some b, Some ts => Some (Octet (16 * a + b) :: ts)
            | _, _, _ => None
            end
        | _ => None
        end
      else
        match tokens r with
        | Some ts => Some (Unit c :: ts)
        | None => None
        end
  end.

(** A code point that [more] continuation octets have just completed is
    accepted when it is not overlong (at least [low]), not a surrogate
    and at most U+10FFFF. *)
Definition scalar (cp low : N) : bool :=
  (low <=? cp) && (cp <=? 1114111) && negb ((55296 <=? cp) && (cp <=? 57343)).

(** The octets are read as UTF-8: [more] continuation octets are still
    due for the code point accumulated in [acc]. *)
Fixpoint assemble (ts : list token) (more : nat) (acc low : N) : option jsstring :=
  match ts with
  | [] => match more with O => Some [] | S _ => None end
  | Unit c :: r =>
      match more with
      | O => cons c <$> assemble r O 0 0
      | S _ => None
      end
  | Octet b :: r =>
      match more with
      | O =>
          if b <? 128 then cons b <$> assemble r O 0 0
          else if b <? 192 then None
          else if b <? 224 then assemble r 1 (N.land b 31) 128
          else if b <? 240 then assemble r 2 (N.land b 15) 2048
          else if b <? 248 then assemble r 3 (N.land b 7) 65536
          else None
      | S k =>
          if (128 <=? b) && (b <? 192) then
            let cp := acc * 64 + N.land b 63 in
            match k with
            | O =>
                if scalar cp low
                then app (Utf.units cp) <$> assemble r O 0 0
                else None
            | S _ => assemble r k cp low
            end
          else None
      end
  end.

Definition decodeURIComponent (s : jsstring) : option jsstring :=
  ts ← tokens s; assemble ts O 0 0.

End URI.

(** The value of the [text] parameter of a deep link. *)
Definition text_of (url : jsstring) : jsstring :=
  drop (length (u16 "https://wa.me/911234567890?text=")) url.

(** [parts] occur in [s] one after the other, without overlap. *)
Fixpoint in_order (parts : list jsstring) (s : jsstring) : Prop :=
  match parts with
  | [] => True
  | p :: ps => ∃ a b, s = a ++ p ++ b ∧ in_order ps b
  end.

(** The form of the end-to-end scenario. *)
Definition asha : FormState :=
  {| name := u16 "Asha"; phone := u16 "9876543210"; college := u16 "XYZ";
     className := u16 "B.Sc II"; subject := u16 "Physics"; pages := 5%float;
     file := None; notes := []; address := [];
     plan := u16 "6-Month (₹999)"; withDiagrams := true |}.

(** Another order for the same plan and the same diagrams option. *)
Definition ravi : FormState :=
  {| name := u16 "Ravi"; phone := u16 "123"; college := [];
     className := u16 "XII"; subject := []; pages := 0%float;
     file := Some {| File.name := u16 "syllabus.pdf" |};
     notes := u16 "blue pen"; address := u16 "12 Park Road";
     plan := u16 "6-Month (₹999)"; withDiagrams := true |}.

(** A world in which nothing was done yet, around a given form. *)
Definition world_of (form : FormState) : World :=
  {| form := form; quote := None; errors := ∅; isSubmitting := false;
     defaultPrevented := false; opened := []; timers := [] |}.

(** [{ ...form, plan, withDiagrams }]. *)
Definition set_plan (p : jsstring) (d : bool) (form : FormState) : FormState :=
  {| name := name form; phone := phone form; college := college form;
     className := className form; subject := subject form;
     pages := pages form; file := file form; notes := notes form;
     address := address form; plan := p; withDiagrams := d |}.

(** [{ ...form, name, phone }]. *)
Definition set_contact (n p : jsstring) (form : FormState) : FormState :=
  {| name := n; phone := p; college := college form;
     className := className form; subject := subject form;
     pages := pages form; file := file form; notes := notes form;
     address := address form; plan := plan form;
     withDiagrams := withDiagrams form |}.

(** [{ ...form, name, phone, pages }]. *)
Definition set_checked (n p : jsstring) (pg : float) (form : FormState) : FormState :=
  {| name := n; phone := p; college := college form;
     className := className form; subject := subject form;
     pages := pg; file := file form; notes := notes form;
     address := address form; plan := plan form;
     withDiagrams := withDiagrams form |}.

(** ** The pricing cards *)

Module PricingPlan.
Record t := {
  title : jsstring;
  price : jsstring;
  details : jsstring;
  discount : jsstring;
  value : jsstring;
}.
End PricingPlan.

Definition PRICING_PLANS : list PricingPlan.t :=
  [ {| PricingPlan.title := u16 "Single Month"; PricingPlan.price := u16 "₹199";
       PricingPlan.details := u16 "1 month · 1 book/1 Assignment · no diagrams";
       PricingPlan.discount := u16 "-20%";
       PricingPlan.value := u16 "Single (₹199)" |};
    {| PricingPlan.title := u16 "3 Months"; PricingPlan.price := u16 "₹499";
       PricingPlan.details := u16 "Up to 3 books/3 Assignment (per month) · save ₹100";
       PricingPlan.discount := u16 "-25%";
       PricingPlan.value := u16 "3-Month (₹499)" |};
    {| PricingPlan.title := u16 "6 Months"; PricingPlan.price := u16 "₹999";
       PricingPlan.details := u16 "1–6 books / 6 Assignment (per month) · best value";
       PricingPlan.discount := u16 "-33%";
       PricingPlan.value := u16 "6-Month (₹999)" |};
    {| PricingPlan.title := u16 "12 Months"; PricingPlan.price := u16 "₹1999";
       PricingPlan.details := u16 "1–12 books / 12 Assignment (per month) · max benefit";
       PricingPlan.discount := u16 "-40%";
       PricingPlan.value := u16 "12-Month (₹1999)" |} ].

(** ** The handlers of the form *)

(** The elements that [handleChange] is the [onChange] of. *)
Inductive control :=
  | input_name | input_phone | input_college | input_className
  | input_subject | input_pages | select_plan | input_address
  | input_file | textarea_notes.

(** [target.name]. *)
Definition target_name (c : control) : string :=
  match c with
  | input_name => "name" | input_phone => "phone"
  | input_college => "college" | input_className => "className"
  | input_subject => "subject" | input_pages => "pages"
  | select_plan => "plan" | input_address => "address"
  | input_file => "file" | textarea_notes => "notes"
  end%string.

(** [target.type]: the [type] attribute of an input ([InputField] defaults
    it to "text"), "select-one" and "textarea" for the other two elements. *)
Definition target_type (c : control) : string :=
  match c with
  | input_phone => "tel" | input_pages => "number" | input_file => "file"
  | select_plan => "select-one" | textarea_notes => "textarea"
  | _ => "text"
  end%string.

(** A change event: its target, with the [value] and the [files] it holds. *)
Record ChangeEvent := {
  target : control;
  target_value : jsstring;
  target_files : list File.t;
}.

(** [{ ...s, [name]: v }] with the string of a text input, of the select or
    of the textarea. The pages and the file inputs never get here. *)
Definition assign_text (c : control) (v : jsstring) (s : FormState) : FormState :=
  {| name := if c is input_name then v else name s;
     phone := if c is input_phone then v else phone s;
     college := if c is input_college then v else college s;
     className := if c is input_className then v else className s;
     subject := if c is input_subject then v else subject s;
     pages := pages s;
     file := file s;
     notes := if c is textarea_notes then v else notes s;
     address := if c is input_address then v else address s;
     plan := if c is select_plan then v else plan s;
     withDiagrams := withDiagrams s |}.

(** [{ ...s, [name]: f }] with a file or null; only the file input, whose
    name is "file", has the type "file". *)
Definition assign_file (c : control) (f : option File.t) (s : FormState) : FormState :=
  {| name := name s; phone := phone s; college := college s;
     className := className s; subject := subject s; pages := pages s;
     file := if c is input_file then f else file s;
     notes := notes s; address := address s; plan := plan s;
     withDiagrams := withDiagrams s |}.

(** [{ ...s, pages: num }]. *)
Definition assign_pages (num : float) (s : FormState) : FormState :=
  {| name := name s; phone := phone s; college := college s;
     className := className s; subject := subject s; pages := num;
     file := file s; notes := notes s; address := address s; plan := plan s;
     withDiagrams := withDiagrams s |}.

(** [{ ...s, withDiagrams: checked }]. *)
Definition assign_withDiagrams (checked : bool) (s : FormState) : FormState :=
  {| name := name s; phone := phone s; college := college s;
     className := className s; subject := subject s; pages := pages s;
     file := file s; notes := notes s; address := address s; plan := plan s;
     withDiagrams := checked |}.

Definition setForm (f : FormState → FormState) : M unit :=
  λ w, (tt, {| form := f (form w); quote := quote w; errors := errors w;
               isSubmitting := isSubmitting w;
               defaultPrevented := defaultPrevented w;
               opened := opened w; timers := timers w |}).

(** [setErrors(prev => ...)]. *)
Definition updateErrors
    (f : gmap string (option jsstring) → gmap string (option jsstring)) : M unit :=
  λ w, (tt, {| form := form w; quote := quote w; errors := f (errors w);
               isSubmitting := isSubmitting w;
               defaultPrevented := defaultPrevented w;
               opened := opened w; timers := timers w |}).

Definition setQuote (v : value) : M unit :=
  λ w, (tt, {| form := form w; quote := Some v; errors := errors w;
               isSubmitting := isSubmitting w;
               defaultPrevented := defaultPrevented w;
               opened := opened w; timers := timers w |}).

(** The state of the first render. *)
Definition initial : World :=
  {| form := {| name := []; phone := []; college := []; className := [];
                subject := []; pages := 1%float; file := None; notes := [];
                address := []; plan := u16 "Single (₹199)";
                withDiagrams := false |};
     quote := None; errors := ∅; isSubmitting := false;
     defaultPrevented := false; opened := []; timers := [] |}.

(** [useEffect(() => setQuote(estimatedPrice), [estimatedPrice])]. *)
Definition quote_effect : M unit :=
  form <- getForm ;; setQuote (estimatedPrice form).

Definition handleDiagramToggle (checked : bool) : M unit :=
  setForm (assign_withDiagrams checked).

(** The [onClick] of the pricing card of [p]. *)
Definition PricingCard_onClick (p : PricingPlan.t) : M unit :=
  setForm (λ s, set_plan (PricingPlan.value p) (withDiagrams s) s).

(** What a timer runs when it fires. *)
Definition run_callback (f : callback) : M unit :=
  match f with
  | reset_isSubmitting => setIsSubmitting false
  end.

Section Handlers.

(** [Number(s)] of a non-empty string, which is the engine's. *)
Variable StringToNumber : jsstring → float.
Variable Number_toString_other : float → jsstring.
Variable Object_toString : jsstring → jsstring.

(** [Number(target.value || 0)]. *)
Definition Number_of_value (v : jsstring) : float :=
  match v with
  | [] => 0%float
  | _ :: _ => StringToNumber v
  end.

Definition handleChange (e : ChangeEvent) : M unit :=
  let name := target_name (target e) in
  updateErrors (λ prev, <[name := None]> prev) ;;
  if String.eqb (target_type (target e)) "file" then
    match target_files e with
    | f :: _ => setForm (assign_file (target e) (Some f))
    | [] => setForm (assign_file (target e) None)
    end
  else if String.eqb name "pages" then
    let num := Number_of_value (target_value e) in
    setForm (assign_pages num)
  else
    setForm (assign_text (target e) (target_value e)).

(** What the user does, and the timer that fires. *)
Inductive event :=
  | Change (e : ChangeEvent)
  | Toggle (checked : bool)
  | Card (p : PricingPlan.t)
  | Submit
  | Timeout.

(** One event handled and the effect of the render that follows run. The
    select offers the keys of [PLAN_PRICES], the cards are those of
    [PRICING_PLANS], and a timer fires when one is pending. *)
Inductive step : World → event → World → Prop :=
  | step_change w e :
      (target e = select_plan → is_Some (PLAN_PRICES !! target_value e)) →
      step w (Change e) (snd ((handleChange e ;; quote_effect) w))
  | step_toggle w checked :
      step w (Toggle checked) (snd ((handleDiagramToggle checked ;; quote_effect) w))
  | step_card w p :
      p ∈ PRICING_PLANS →
      step w (Card p) (snd ((PricingCard_onClick p ;; quote_effect) w))
  | step_submit w :
      step w Submit
        (snd ((handleSubmit Number_toString_other Object_toString ;; quote_effect) w))
  | step_timeout w f delay rest :
      timers w = (f, delay) :: rest →
      step w Timeout
        (snd ((run_callback f ;; quote_effect)
                {| form := form w; quote := quote w; errors := errors w;
                   isSubmitting := isSubmitting w;
                   defaultPrevented := defaultPrevented w;
                   opened := opened w; timers := rest |})).

(** The states the component gets into, from the first render on. *)
Inductive reachable : World → Prop :=
  | reachable_initial : reachable (snd (quote_effect initial))
  | reachable_step w ev w' : reachable w → step w ev w' → reachable w'.

End Handlers.

(** ** A session *)

(** The user types [v] into the control [c]. *)
Definition typing (c : control) (v : jsstring) : ChangeEvent :=
  {| target := c; target_value := v; target_files := [] |}.

(** The first render, a name and a phone typed in, the form submitted;
    the engine's conversions do not come into it. *)
Definition session_filled : World :=
  snd ((handleChange (λ _, PrimFloat.nan) (typing input_phone (u16 "9876543210"))
        ;; quote_effect)
         (snd ((handleChange (λ _, PrimFloat.nan) (typing input_name (u16 "Asha"))
                ;; quote_effect)
                 (snd (quote_effect initial))))).

Definition session_sent : World :=
  snd ((handleSubmit (λ _, []) (λ _, []) ;; quote_effect) session_filled).

(** * Properties *)

(** ** The quote *)

Lemma PLAN_PRICES_lookup (key : jsstring) (x : float) :
  PLAN_PRICES !! key = Some x →
  (key = u16 "Single (₹199)" ∧ x = 199%float)
  ∨ (key = u16 "3-Month (₹499)" ∧ x = 499%float)
  ∨ (key = u16 "6-Month (₹999)" ∧ x = 999%float)
  ∨ (key = u16 "12-Month (₹1999)" ∧ x = 1999%float).
Proof.
  unfold PLAN_PRICES.
  rewrite !lookup_insert_Some, lookup_empty.
  intros [[<- <-] | [_ [[<- <-] | [_ [[<- <-] | [_ [[<- <-] | [_ ?]]]]]]]].
  - left. split; reflexivity.
  - right; left. split; reflexivity.
  - right; right; left. split; reflexivity.
  - right; right; right. split; reflexivity.
  - discriminate.
Qed.

(** The float nearest to 12/10 is the one [estimatedPrice] multiplies by. *)
Lemma markup_literal : (12 / 10)%float = 0x1.3333333333333p+0%float.
Proof. vm_compute. reflexivity. Qed.

Lemma estimatedPrice_deps (f1 f2 : FormState) :
  plan f1 = plan f2 → withDiagrams f1 = withDiagrams f2 →
  estimatedPrice f1 = estimatedPrice f2.
Proof. unfold estimatedPrice. intros -> ->. reflexivity. Qed.

(** The memoised value is the one the callback computes from the form of
    the current render, whichever renders came before. *)
Lemma useMemo_estimatedPrice_fresh (earlier : option FormState) (form : FormState) :
  let cache := (λ f, (plan f, withDiagrams f, estimatedPrice f)) <$> earlier in
  useMemo_estimatedPrice cache form
  = (estimatedPrice form, Some (plan form, withDiagrams form, estimatedPrice form)).
Proof.
  destruct earlier as [f0|]; simpl; [|reflexivity].
  case_bool_decide as Hp; simpl; [|reflexivity].
  destruct (Bool.eqb _ _) eqn:Hd; [|reflexivity].
  apply Bool.eqb_prop in Hd.
  rewrite (estimatedPrice_deps f0 form Hp Hd), Hp, Hd. reflexivity.
Qed.

(** C1: for a plan key of [PLAN_PRICES] the quote is the plan's base price
    without diagrams and [Math.round(basePrice * 1.2)] with them: 199, 499,
    999, 1999 and 239, 599, 1199, 2399. *)
Theorem quote_of_recognized_plan (form : FormState) (basePrice : float) :
  PLAN_PRICES !! plan form = Some basePrice →
  estimatedPrice form
  = VNumber (if withDiagrams form
             then Num.Math_round (basePrice * 0x1.3333333333333p+0)%float
             else basePrice)
  ∧ ((plan form = u16 "Single (₹199)"
      ∧ estimatedPrice form = VNumber (if withDiagrams form then 239 else 199)%float)
     ∨ (plan form = u16 "3-Month (₹499)"
        ∧ estimatedPrice form = VNumber (if withDiagrams form then 599 else 499)%float)
     ∨ (plan form = u16 "6-Month (₹999)"
        ∧ estimatedPrice form = VNumber (if withDiagrams form then 1199 else 999)%float)
     ∨ (plan form = u16 "12-Month (₹1999)"
        ∧ estimatedPrice form = VNumber (if withDiagrams form then 2399 else 1999)%float)).
Proof.
  intros Hget.
  assert (Hq : estimatedPrice form
               = VNumber (if withDiagrams form
                          then Num.Math_round (basePrice * 0x1.3333333333333p+0)%float
                          else basePrice)).
  { unfold estimatedPrice, PLAN_PRICES_get. rewrite Hget. simpl.
    destruct (withDiagrams form); reflexivity. }
  split; [exact Hq|].
  rewrite Hq.
  destruct (PLAN_PRICES_lookup _ _ Hget) as [[-> ->] | [[-> ->] | [[-> ->] | [-> ->]]]];
    [left | right; left | right; right; left | right; right; right];
    (split; [reflexivity|]); destruct (withDiagrams form); vm_compute; reflexivity.
Qed.

Lemma quote_of_recognized_plan_witness :
  PLAN_PRICES !! plan asha = Some 999%float
  ∧ estimatedPrice asha = VNumber 1199%float.
Proof.
  assert (H : PLAN_PRICES !! plan asha = Some 999%float) by (vm_compute; reflexivity).
  split; [exact H|].
  destruct (quote_of_recognized_plan asha 999%float H) as [Hq _].
  rewrite Hq. vm_compute. reflexivity.
Defined.

(** A key that [PLAN_PRICES] inherits, [toString], is not a plan key, and
    the quote read through it is the inherited function, or NaN with
    diagrams: neither 199 nor 239. *)
Lemma quote_of_inherited_key :
  PLAN_PRICES !! u16 "toString" = None
  ∧ estimatedPrice (set_plan (u16 "toString") false asha) = VObject (u16 "toString")
  ∧ estimatedPrice (set_plan (u16 "toString") false asha) ≠ VNumber 199%float
  ∧ estimatedPrice (set_plan (u16 "toString") true asha) = VNumber PrimFloat.nan
  ∧ estimatedPrice (set_plan (u16 "toString") true asha) ≠ VNumber 239%float.
Proof.
  repeat split; try (vm_compute; reflexivity); vm_compute; discriminate.
Qed.

(** C2, amended: for a key that is neither a plan key nor the name of a
    property inherited from [Object.prototype], the base price is 199: the
    quote is 199 without diagrams and 239 with them. *)
Theorem quote_of_unrecognized_plan (form : FormState) :
  PLAN_PRICES !! plan form = None →
  plan form ∉ Object_prototype →
  PLAN_PRICES_get (plan form) ?? VNumber 199%float = VNumber 199%float
  ∧ estimatedPrice form = VNumber (if withDiagrams form then 239 else 199)%float.
Proof.
  intros Hown Hproto.
  assert (Hbase : PLAN_PRICES_get (plan form) = None).
  { unfold PLAN_PRICES_get. rewrite Hown.
    case_bool_decide; [contradiction | reflexivity]. }
  unfold estimatedPrice. rewrite Hbase. simpl.
  split; [reflexivity|].
  destruct (withDiagrams form); vm_compute; reflexivity.
Qed.

Lemma quote_of_unrecognized_plan_witness :
  estimatedPrice (set_plan (u16 "Weekly (₹99)") true asha) = VNumber 239%float.
Proof.
  refine (proj2 (quote_of_unrecognized_plan (set_plan (u16 "Weekly (₹99)") true asha) _ _)).
  - vm_compute. reflexivity.
  - apply (bool_decide_eq_false_1 (_ ∈ _)). vm_compute. reflexivity.
Defined.

(** C7: the quote is a function of [plan] and [withDiagrams] alone: two
    forms that agree on these two fields get the same quote, whatever
    their other fields hold; so the value [useMemo] kept from a render of
    the one is the quote of the other. *)
Theorem quote_depends_on_plan_and_diagrams (f1 f2 : FormState) :
  plan f1 = plan f2 →
  withDiagrams f1 = withDiagrams f2 →
  estimatedPrice f1 = estimatedPrice f2
  ∧ fst (useMemo_estimatedPrice
           (Some (plan f1, withDiagrams f1, estimatedPrice f1)) f2)
    = estimatedPrice f2.
Proof.
  intros Hp Hd. split.
  - apply estimatedPrice_deps; assumption.
  - unfold useMemo_estimatedPrice.
    rewrite (bool_decide_eq_true_2 _ Hp), Hd, Bool.eqb_reflx. simpl.
    apply estimatedPrice_deps; assumption.
Qed.

Lemma quote_depends_on_plan_and_diagrams_witness :
  estimatedPrice ravi = estimatedPrice asha.
Proof.
  apply (quote_depends_on_plan_and_diagrams ravi asha); reflexivity.
Defined.

(** ** Validation *)

Lemma test_ten_digits_spec (s : jsstring) :
  test_ten_digits s = true ↔ ten_digits s.
Proof.
  unfold test_ten_digits, ten_digits.
  rewrite andb_true_iff, Nat.eqb_eq, forallb_forall, Forall_forall.
  split; intros [Hlen Hall]; (split; [exact Hlen|]); intros c Hc.
  - apply list_elem_of_In, Hall in Hc. unfold is_digit in Hc.
    apply andb_true_iff in Hc as [?%N.leb_le ?%N.leb_le]. lia.
  - apply list_elem_of_In, Hall in Hc. unfold is_digit.
    apply andb_true_iff. split; apply N.leb_le; lia.
Qed.

Lemma newErrors_name (form : FormState) :
  newErrors form !! "name"%string
  = match trim (name form) with
    | [] => Some (Some (u16 "Name is required."))
    | _ :: _ => None
    end.
Proof.
  unfold newErrors.
  destruct (PrimFloat.is_nan _ || _), (negb _), (trim (name form));
    repeat (rewrite lookup_insert_ne by discriminate);
    rewrite ?lookup_insert_eq, ?lookup_empty; reflexivity.
Qed.

Lemma newErrors_phone (form : FormState) :
  newErrors form !! "phone"%string
  = if test_ten_digits (trim (phone form)) then None
    else Some (Some (u16 "Enter a valid 10-digit phone.")).
Proof.
  unfold newErrors.
  destruct (PrimFloat.is_nan _ || _), (test_ten_digits _), (trim (name form));
    simpl;
    repeat (rewrite lookup_insert_ne by discriminate);
    rewrite ?lookup_insert_eq, ?lookup_empty; reflexivity.
Qed.

Lemma newErrors_pages (form : FormState) :
  newErrors form !! "pages"%string
  = if PrimFloat.is_nan (pages form) || (pages form <? 1)%float
    then Some (Some (u16 "Pages must be at least 1."))
    else None.
Proof.
  unfold newErrors.
  destruct (PrimFloat.is_nan _ || _), (test_ten_digits _), (trim (name form));
    simpl;
    repeat (rewrite lookup_insert_ne by discriminate);
    rewrite ?lookup_insert_eq, ?lookup_empty; reflexivity.
Qed.

(** The form is submittable exactly when the three checks pass. *)
Lemma newErrors_empty (form : FormState) :
  newErrors form = ∅
  ↔ trim (name form) ≠ []
    ∧ test_ten_digits (trim (phone form)) = true
    ∧ PrimFloat.is_nan (pages form) || (pages form <? 1)%float = false.
Proof.
  split.
  - intros He.
    pose proof (newErrors_name form) as Hn.
    pose proof (newErrors_phone form) as Hp.
    pose proof (newErrors_pages form) as Hg.
    rewrite He, lookup_empty in Hn, Hp, Hg.
    destruct (trim (name form)); [discriminate|].
    destruct (test_ten_digits _); [|discriminate].
    destruct (PrimFloat.is_nan _ || _); [discriminate|].
    auto.
  - intros (Hn & Hp & Hg). unfold newErrors.
    rewrite Hp, Hg. simpl.
    destruct (trim (name form)); [contradiction | reflexivity].
Qed.

(** A form whose pages are [+Infinity], not a finite number, gets no error
    for the field. *)
Lemma infinite_pages_accepted :
  PrimFloat.is_finite (pages (set_checked (u16 "Asha") (u16 "9876543210") PrimFloat.infinity asha)) = false
  ∧ newErrors (set_checked (u16 "Asha") (u16 "9876543210") PrimFloat.infinity asha) !! "pages"%string = None
  ∧ newErrors (set_checked (u16 "Asha") (u16 "9876543210") PrimFloat.infinity asha) = ∅.
Proof.
  split; [vm_compute; reflexivity|].
  split.
  - rewrite newErrors_pages. vm_compute. reflexivity.
  - apply newErrors_empty. repeat split; try (vm_compute; reflexivity).
    vm_compute. discriminate.
Qed.

(** C4, amended: the error for [pages] is "Pages must be at least 1.", and
    it is reported exactly when the value is NaN or less than 1; so NaN and
    -Infinity get it and +Infinity does not. *)
Theorem pages_error_iff_nan_or_below_one (form : FormState) :
  (newErrors form !! "pages"%string = Some (Some (u16 "Pages must be at least 1."))
   ↔ PrimFloat.is_nan (pages form) = true ∨ (pages form <? 1)%float = true)
  ∧ (newErrors form !! "pages"%string = None
     ↔ PrimFloat.is_nan (pages form) = false ∧ (pages form <? 1)%float = false)
  ∧ (PrimFloat.is_nan PrimFloat.nan = true
     ∧ (PrimFloat.neg_infinity <? 1)%float = true
     ∧ PrimFloat.is_nan PrimFloat.infinity = false
     ∧ (PrimFloat.infinity <? 1)%float = false).
Proof.
  rewrite newErrors_pages.
  destruct (PrimFloat.is_nan (pages form)), (pages form <? 1)%float; simpl;
    (split; [|split]); try (vm_compute; tauto);
    split; try discriminate; intuition discriminate.
Qed.

(** C5: "Name is required." is reported exactly when the trimmed name is
    empty, "Enter a valid 10-digit phone." exactly when the trimmed phone
    is not ten ASCII digits (so an 11-digit phone gets it), and a form
    with name "", phone "123" and pages 0 gets the three errors, each
    with its literal message, and no other key. *)
Theorem name_and_phone_errors (form : FormState) :
  (newErrors form !! "name"%string = Some (Some (u16 "Name is required."))
   ↔ trim (name form) = [])
  ∧ (newErrors form !! "name"%string = None ↔ trim (name form) ≠ [])
  ∧ (newErrors form !! "phone"%string = Some (Some (u16 "Enter a valid 10-digit phone."))
     ↔ ¬ ten_digits (trim (phone form)))
  ∧ (newErrors form !! "phone"%string = None ↔ ten_digits (trim (phone form)))
  ∧ newErrors (set_checked (name form) (u16 "98765432100") (pages form) form) !! "phone"%string
    = Some (Some (u16 "Enter a valid 10-digit phone."))
  ∧ newErrors (set_checked [] (u16 "123") 0%float form)
    = <["name"%string := Some (u16 "Name is required.")]>
      (<["phone"%string := Some (u16 "Enter a valid 10-digit phone.")]>
      (<["pages"%string := Some (u16 "Pages must be at least 1.")]> ∅)).
Proof.
  rewrite newErrors_name, !newErrors_phone, <- test_ten_digits_spec.
  repeat split; try (destruct (trim (name form)); congruence);
    destruct (test_ten_digits (trim (phone form))); congruence.
Qed.

(** ** Strings *)

Lemma starts_with_app (x b : jsstring) : starts_with x (x ++ b) = true.
Proof. induction x as [|c x IH]; simpl; [reflexivity|]. rewrite N.eqb_refl. exact IH. Qed.

Lemma includes_app (a x b : jsstring) : includes x (a ++ x ++ b) = true.
Proof.
  induction a as [|c a IH]; simpl.
  - pose proof (starts_with_app x b) as Hx.
    destruct (x ++ b); simpl; rewrite Hx; reflexivity.
  - rewrite IH. apply orb_true_r.
Qed.

Lemma in_order_skip (a : jsstring) (parts : list jsstring) (s : jsstring) :
  in_order parts s → in_order parts (a ++ s).
Proof.
  destruct parts as [|p ps]; simpl; [trivial|].
  intros (a' & b & -> & Hps). exists (a ++ a'), b.
  rewrite <- app_assoc. auto.
Qed.

Lemma in_order_here (p : jsstring) (ps : list jsstring) (b : jsstring) :
  in_order ps b → in_order (p :: ps) (p ++ b).
Proof. intros Hps. exists [], b. auto. Qed.

Lemma in_order_here2 (x y : jsstring) (ps : list jsstring) (b : jsstring) :
  in_order ps b → in_order ((x ++ y) :: ps) (x ++ y ++ b).
Proof. intros Hps. exists [], b. rewrite <- app_assoc. auto. Qed.

Lemma in_order_here3 (x y z : jsstring) (ps : list jsstring) (b : jsstring) :
  in_order ps b → in_order ((x ++ y ++ z) :: ps) (x ++ y ++ z ++ b).
Proof. intros Hps. exists [], b. rewrite <- !app_assoc. auto. Qed.

Lemma in_order_last (p : jsstring) : in_order [p] p.
Proof. exists [], []. rewrite app_nil_r. simpl. auto. Qed.

Lemma in_order_includes (parts : list jsstring) (s p : jsstring) :
  in_order parts s → p ∈ parts → includes p s = true.
Proof.
  revert s. induction parts as [|q ps IH]; intros s Hs Hp.
  - inversion Hp.
  - destruct Hs as (a & b & -> & Hps).
    apply elem_of_cons in Hp as [-> | Hp].
    + apply includes_app.
    + specialize (IH b Hps Hp).
      clear -IH. rewrite app_assoc.
      induction (a ++ q) as [|c l IHl]; simpl; [exact IH|].
      rewrite IHl. apply orb_true_r.
Qed.

Lemma trimStart_white (l s : jsstring) :
  forallb is_white_space l = true → trimStart (l ++ s) = trimStart s.
Proof.
  induction l as [|c l IH]; simpl; [reflexivity|].
  intros [Hc Hl]%andb_true_iff. rewrite Hc. auto.
Qed.

Lemma trimStart_black (s r : jsstring) :
  trimStart s ≠ [] → trimStart (s ++ r) = trimStart s ++ r.
Proof.
  induction s as [|c s IH]; simpl; [contradiction|].
  destruct (is_white_space c); auto.
Qed.

Lemma trimStart_all_white (s : jsstring) :
  trimStart s = [] → forallb is_white_space s = true.
Proof.
  induction s as [|c s IH]; simpl; [reflexivity|].
  destruct (is_white_space c); [auto | discriminate].
Qed.

Lemma trimStart_idem (s : jsstring) : trimStart (trimStart s) = trimStart s.
Proof.
  induction s as [|c s IH]; simpl; [reflexivity|].
  destruct (is_white_space c) eqn:Hc; [exact IH|].
  simpl. rewrite Hc. reflexivity.
Qed.

(** What [trimStart] removes is white space. *)
Lemma trimStart_split (s : jsstring) :
  ∃ a, forallb is_white_space a = true ∧ s = a ++ trimStart s.
Proof.
  induction s as [|c s (a & Ha & IH)]; simpl.
  - exists []. auto.
  - destruct (is_white_space c) eqn:Hc.
    + exists (c :: a). simpl. rewrite Hc, Ha. split; [reflexivity|].
      f_equal. exact IH.
    + exists []. auto.
Qed.

Lemma trimEnd_white (s r : jsstring) :
  forallb is_white_space r = true → trimEnd (s ++ r) = trimEnd s.
Proof.
  intros Hr. unfold trimEnd. rewrite rev_app_distr.
  rewrite trimStart_white; [reflexivity|].
  rewrite forallb_forall in *. intros c Hc. apply Hr, in_rev, Hc.
Qed.

Lemma trimEnd_split (s : jsstring) :
  ∃ b, forallb is_white_space b = true ∧ s = trimEnd s ++ b.
Proof.
  destruct (trimStart_split (rev s)) as (a & Ha & Hs).
  exists (rev a). split.
  - rewrite forallb_forall in *. intros c Hc. apply Ha, in_rev, Hc.
  - unfold trimEnd. rewrite <- rev_app_distr, <- Hs, rev_involutive. reflexivity.
Qed.

(** White space around a string does not show after [trim]. *)
Lemma trim_padding (l s r : jsstring) :
  forallb is_white_space l = true → forallb is_white_space r = true →
  trim (l ++ s ++ r) = trim s.
Proof.
  intros Hl Hr. unfold trim. rewrite trimStart_white by exact Hl.
  destruct (trimStart s) as [|c t] eqn:Hs.
  - rewrite trimStart_white by (apply trimStart_all_white, Hs).
    destruct (trimStart_split r) as (a & Ha & Hr').
    assert (Hz : trimStart r = []).
    { clear -Hr. induction r as [|c r IH]; simpl in *; [reflexivity|].
      apply andb_true_iff in Hr as [-> Hr]. auto. }
    rewrite Hz. reflexivity.
  - rewrite trimStart_black by (rewrite Hs; discriminate).
    rewrite Hs. apply trimEnd_white, Hr.
Qed.

(** A non-empty result of [trim] starts with a character that is not
    white space. *)
Lemma trim_head (s : jsstring) (c : N) (t : jsstring) :
  trim s = c :: t → is_white_space c = false.
Proof.
  unfold trim. intros Ht.
  destruct (trimEnd_split (trimStart s)) as (b & _ & Hb).
  rewrite Ht in Hb.
  pose proof (trimStart_idem s) as Hi. rewrite Hb in Hi. simpl in Hi.
  destruct (is_white_space c) eqn:Hc; [|reflexivity].
  exfalso.
  assert (Hlen : (length (trimStart (t ++ b)) ≤ length (t ++ b))%nat).
  { generalize (t ++ b). intros u.
    destruct (trimStart_split u) as (a & _ & Hu).
    rewrite Hu at 2. rewrite length_app. lia. }
  rewrite Hi in Hlen. simpl in Hlen. lia.
Qed.

(** The string is its [trim] between two runs of white space. *)
Lemma trim_split (s : jsstring) :
  ∃ a b, forallb is_white_space a = true ∧ forallb is_white_space b = true
         ∧ s = a ++ trim s ++ b.
Proof.
  destruct (trimStart_split s) as (a & Ha & Hs).
  destruct (trimEnd_split (trimStart s)) as (b & Hb & Ht).
  exists a, b. unfold trim. rewrite <- Ht. auto.
Qed.

(** A run of white space before a character that is not white space is
    determined by the whole. *)
Lemma white_prefix_unique (a1 a2 : jsstring) (c1 c2 : N) (r1 r2 : jsstring) :
  forallb is_white_space a1 = true → forallb is_white_space a2 = true →
  is_white_space c1 = false → is_white_space c2 = false →
  a1 ++ c1 :: r1 = a2 ++ c2 :: r2 →
  a1 = a2 ∧ c1 :: r1 = c2 :: r2.
Proof.
  revert a2. induction a1 as [|x a1 IH]; intros [|y a2]; simpl;
    intros H1 H2 Hc1 Hc2 Heq.
  - auto.
  - exfalso. injection Heq as -> _.
    apply andb_true_iff in H2 as [H2 _]. congruence.
  - exfalso. injection Heq as <- _.
    apply andb_true_iff in H1 as [H1 _]. congruence.
  - injection Heq as -> Heq.
    apply andb_true_iff in H1 as [_ H1]. apply andb_true_iff in H2 as [_ H2].
    destruct (IH a2 H1 H2 Hc1 Hc2 Heq) as [-> ?]. auto.
Qed.

(** Two strings with the same non-empty [trim], each followed by the same
    separator that starts with a character that is not white space, are
    told apart by what they are followed with. *)
Lemma padded_inj (n1 n2 : jsstring) (c : N) (s x1 x2 : jsstring) :
  trim n1 = trim n2 → trim n1 ≠ [] → is_white_space c = false →
  n1 ++ (c :: s) ++ x1 = n2 ++ (c :: s) ++ x2 →
  n1 = n2 ∧ x1 = x2.
Proof.
  intros Ht Hne Hc Heq.
  destruct (trim_split n1) as (a1 & b1 & Ha1 & Hb1 & H1).
  destruct (trim_split n2) as (a2 & b2 & Ha2 & Hb2 & H2).
  rewrite <- Ht in H2.
  destruct (trim n1) as [|d t] eqn:Hd; [contradiction|].
  pose proof (trim_head _ _ _ Hd) as Hdw.
  rewrite H1, H2 in Heq. rewrite H1, H2. clear H1 H2 Hd Ht Hne.
  rewrite <- !app_assoc in Heq. simpl in Heq.
  apply white_prefix_unique in Heq as [-> Heq]; [|assumption..].
  injection Heq as Heq. apply app_inv_head in Heq.
  apply white_prefix_unique in Heq as [-> Heq]; [|assumption..].
  injection Heq as Heq. apply app_inv_head in Heq. auto.
Qed.

(** ** Percent-decoding *)

Lemma tokens_plain (a b : jsstring) (ts : list URI.token) :
  no_percent a = true → URI.tokens b = Some ts →
  URI.tokens (a ++ b) = Some (map URI.Unit a ++ ts).
Proof.
  intros Ha Hb. induction a as [|c a IH]; simpl; [exact Hb|].
  simpl in Ha. apply andb_true_iff in Ha as [Hc Ha].
  apply negb_true_iff in Hc. rewrite Hc, (IH Ha). reflexivity.
Qed.

Lemma assemble_plain (a : jsstring) (ts : list URI.token) (r : jsstring) :
  URI.assemble ts O 0 0 = Some r →
  URI.assemble (map URI.Unit a ++ ts) O 0 0 = Some (a ++ r).
Proof.
  intros Hr. induction a as [|c a IH]; simpl; [exact Hr|].
  rewrite IH. reflexivity.
Qed.

Lemma decode_segment (a b r : jsstring) :
  no_percent a = true →
  URI.decodeURIComponent b = Some r →
  URI.decodeURIComponent (a ++ b) = Some (a ++ r).
Proof.
  unfold URI.decodeURIComponent. intros Ha Hb.
  destruct (URI.tokens b) as [ts|] eqn:Hts; [|discriminate].
  rewrite (tokens_plain a b ts Ha Hts). simpl in *.
  apply assemble_plain, Hb.
Qed.

Lemma decode_line_break (b r : jsstring) :
  URI.decodeURIComponent b = Some r →
  URI.decodeURIComponent (u16 "%0A" ++ b) = Some ([10] ++ r).
Proof.
  unfold URI.decodeURIComponent. intros Hb.
  destruct (URI.tokens b) as [ts|] eqn:Hts; [|discriminate].
  change (u16 "%0A" ++ b) with (37 :: 48 :: 65 :: b).
  cbn [URI.tokens]. change (37 =? 37) with true. cbn iota.
  change (URI.hex 48) with (Some 0). change (URI.hex 65) with (Some 10).
  rewrite Hts. simpl in *. rewrite Hb. reflexivity.
Qed.

Lemma decode_all (a : jsstring) :
  no_percent a = true → URI.decodeURIComponent a = Some a.
Proof.
  intros Ha. pose proof (decode_segment a [] [] Ha eq_refl) as H.
  rewrite app_nil_r in H. exact H.
Qed.

Lemma no_percent_app (a b : jsstring) :
  no_percent a = true → no_percent b = true → no_percent (a ++ b) = true.
Proof. unfold no_percent. rewrite forallb_app. intros -> ->. reflexivity. Qed.

Lemma no_percent_or_else (a b : jsstring) :
  no_percent a = true → no_percent b = true → no_percent (or_else a b) = true.
Proof. destruct a; auto. Qed.

Lemma text_of_whatsappUrl (m : jsstring) :
  text_of (u16 "https://wa.me/911234567890?text=" ++ m) = m.
Proof. unfold text_of. apply drop_app_length. Qed.

(** ** The order message and the submission *)

Section MessageProperties.

Variable Number_toString_other : float → jsstring.
Variable Object_toString : jsstring → jsstring.

Abbreviation ToString := (ToString Number_toString_other Object_toString).
Abbreviation Number_toString := (Number_toString Number_toString_other).
Abbreviation msg := (msg Number_toString_other Object_toString).
Abbreviation text := (text Number_toString_other Object_toString).
Abbreviation percent_free := (percent_free Number_toString_other Object_toString).
Abbreviation whatsappUrl := (whatsappUrl Number_toString_other Object_toString).
Abbreviation handleSubmit := (handleSubmit Number_toString_other Object_toString).

(** C6: whatever the form holds, the message has the fourteen lines, in
    the order title, name, phone, address, college, class, subject, pages,
    diagrams, plan, notes, quote, file, closing; an optional field that is
    empty leaves its line in place, with an em dash for the value. *)
Theorem order_message_lines (form : FormState) :
  in_order
    [ u16 "*NotebookComplete Order*" ++ u16 "%0A";
      u16 "👤 Name: " ++ name form ++ u16 "%0A";
      u16 "📞 Phone: " ++ phone form ++ u16 "%0A";
      u16 " 🏠 Address: " ++ or_else (address form) (u16 "—") ++ u16 "%0A";
      u16 " 🏫 College: " ++ or_else (college form) (u16 "—") ++ u16 "%0A";
      u16 "📚 Class: " ++ or_else (className form) (u16 "—") ++ u16 "%0A";
      u16 "📘 Subject: " ++ or_else (subject form) (u16 "—") ++ u16 "%0A";
      u16 "📄 Pages: " ++ Number_toString (pages form) ++ u16 "%0A";
      u16 "🎨 Diagrams/Printouts: " ++ diagramsMsg form ++ u16 "%0A";
      u16 "💰 Plan: " ++ plan form ++ u16 "%0A";
      u16 "📝 Notes: " ++ or_else (notes form) (u16 "—") ++ u16 "%0A";
      u16 "💵 Estimated Price: ₹" ++ ToString (estimatedPrice form) ++ u16 "%0A";
      fileMsg form ++ u16 "%0A";
      u16 "Please confirm availability and final quote." ]
    (msg form)
  ∧ (address form = [] → includes (u16 " 🏠 Address: —%0A") (msg form) = true)
  ∧ (college form = [] → includes (u16 " 🏫 College: —%0A") (msg form) = true)
  ∧ (className form = [] → includes (u16 "📚 Class: —%0A") (msg form) = true)
  ∧ (subject form = [] → includes (u16 "📘 Subject: —%0A") (msg form) = true)
  ∧ (notes form = [] → includes (u16 "📝 Notes: —%0A") (msg form) = true).
Proof.
  assert (Hlines : in_order
    [ u16 "*NotebookComplete Order*" ++ u16 "%0A";
      u16 "👤 Name: " ++ name form ++ u16 "%0A";
      u16 "📞 Phone: " ++ phone form ++ u16 "%0A";
      u16 " 🏠 Address: " ++ or_else (address form) (u16 "—") ++ u16 "%0A";
      u16 " 🏫 College: " ++ or_else (college form) (u16 "—") ++ u16 "%0A";
      u16 "📚 Class: " ++ or_else (className form) (u16 "—") ++ u16 "%0A";
      u16 "📘 Subject: " ++ or_else (subject form) (u16 "—") ++ u16 "%0A";
      u16 "📄 Pages: " ++ Number_toString (pages form) ++ u16 "%0A";
      u16 "🎨 Diagrams/Printouts: " ++ diagramsMsg form ++ u16 "%0A";
      u16 "💰 Plan: " ++ plan form ++ u16 "%0A";
      u16 "📝 Notes: " ++ or_else (notes form) (u16 "—") ++ u16 "%0A";
      u16 "💵 Estimated Price: ₹" ++ ToString (estimatedPrice form) ++ u16 "%0A";
      fileMsg form ++ u16 "%0A";
      u16 "Please confirm availability and final quote." ]
    (msg form)).
  { unfold msg, message.
    apply in_order_here2, in_order_skip.
    do 11 apply in_order_here3.
    apply in_order_skip, in_order_here2, in_order_skip, in_order_last. }
  split; [exact Hlines|].
  repeat split; intros Hempty;
    apply (in_order_includes _ _ _ Hlines); rewrite Hempty;
    change (or_else [] (u16 "—")) with (u16 "—");
    repeat first [ apply list_elem_of_here | apply list_elem_of_further ].
Qed.

(** C8: for the form of the end-to-end scenario the quote is 1199, the
    diagrams line is the affirmative literal with its "+20%", and the file
    line is the "None selected" literal that asks for the content in the
    chat; the whole message is the one given. *)
Theorem asha_scenario :
  estimatedPrice asha = VNumber 1199%float
  ∧ includes (u16 "%0A🎨 Diagrams/Printouts: YES (+20% markup included)%0A") (msg asha) = true
  ∧ includes (u16 "%0A📎 File: None selected. *Please upload your syllabus/content in our chat.*%0A") (msg asha) = true
  ∧ msg asha
    = u16 "*NotebookComplete Order*%0A%0A👤 Name: Asha%0A📞 Phone: 9876543210%0A 🏠 Address: —%0A 🏫 College: XYZ%0A📚 Class: B.Sc II%0A📘 Subject: Physics%0A📄 Pages: 5%0A🎨 Diagrams/Printouts: YES (+20% markup included)%0A💰 Plan: 6-Month (₹999)%0A📝 Notes: —%0A💵 Estimated Price: ₹1199%0A%0A📎 File: None selected. *Please upload your syllabus/content in our chat.*%0A%0APlease confirm availability and final quote.".
Proof. split; [|split; [|split]]; vm_compute; reflexivity. Qed.

Lemma newErrors_reported (form : FormState) :
  is_Some (newErrors form !! "name"%string)
  ∨ is_Some (newErrors form !! "phone"%string)
  ∨ is_Some (newErrors form !! "pages"%string) →
  bool_decide (size (newErrors form) = 0%nat) = false.
Proof.
  intros H. apply bool_decide_eq_false_2. intros Hsize.
  apply map_size_empty_iff in Hsize. rewrite Hsize, !lookup_empty in H.
  destruct H as [[? ?] | [[? ?] | [? ?]]]; discriminate.
Qed.

(** A valid form is sent: the link is opened in a new window, the form is
    marked as submitting, and the timer that ends this is set. *)
Lemma handleSubmit_valid (w : World) :
  newErrors (form w) = ∅ →
  handleSubmit w
  = (tt, {| form := form w; quote := quote w; errors := ∅;
            isSubmitting := true; defaultPrevented := true;
            opened := opened w ++ [(whatsappUrl (form w), u16 "_blank")];
            timers := timers w ++ [(reset_isSubmitting, 1000)] |}).
Proof.
  intros Hv. unfold handleSubmit, validateForm, bind, ret,
    preventDefault, getForm, setErrors, setIsSubmitting, window_open, setTimeout.
  cbn [form quote errors isSubmitting defaultPrevented opened timers].
  rewrite Hv. reflexivity.
Qed.

(** C9: when a check of [validateForm] reports an error, [handleSubmit]
    returns with the errors set and nothing else done to the component:
    no window is opened, no timer is set, [isSubmitting] is as it was. The
    default action of the event is prevented, as on every submit. *)
Theorem handleSubmit_blocked (w : World) :
  is_Some (newErrors (form w) !! "name"%string)
  ∨ is_Some (newErrors (form w) !! "phone"%string)
  ∨ is_Some (newErrors (form w) !! "pages"%string) →
  handleSubmit w
  = (tt, {| form := form w; quote := quote w; errors := newErrors (form w);
            isSubmitting := isSubmitting w; defaultPrevented := true;
            opened := opened w; timers := timers w |}).
Proof.
  intros Herr. unfold handleSubmit, validateForm, bind, ret,
    preventDefault, getForm, setErrors.
  cbn [form quote errors isSubmitting defaultPrevented opened timers].
  rewrite (newErrors_reported _ Herr). reflexivity.
Qed.

Lemma msg_contact_lines (form : FormState) :
  in_order
    [ u16 "👤 Name: " ++ name form ++ u16 "%0A";
      u16 "📞 Phone: " ++ phone form ++ u16 "%0A" ]
    (msg form).
Proof.
  unfold msg, message.
  do 3 apply in_order_skip.
  do 2 apply in_order_here3.
  exact I.
Qed.

Lemma set_contact_same (form : FormState) :
  set_contact (name form) (phone form) form = form.
Proof. destruct form. reflexivity. Qed.

(** The message around the name and the phone: what follows them is made of
    the other fields. *)
Lemma message_contact (form : FormState) :
  ∃ tail, ∀ n p,
    msg (set_contact n p form)
    = u16 "*NotebookComplete Order*" ++ u16 "%0A" ++ u16 "%0A"
      ++ u16 "👤 Name: " ++ n ++ (37 :: [48; 65])
      ++ u16 "📞 Phone: " ++ p ++ tail.
Proof.
  eexists. intros n p.
  unfold msg, message, diagramsMsg, fileMsg, estimatedPrice.
  cbn [set_contact name phone college className subject pages file notes
       address plan withDiagrams].
  reflexivity.
Qed.

(** C10: validation looks at the trimmed name and phone, the message
    carries them as typed. Replacing the name and phone of a valid form by
    strings with the same [trim] (the same content within other white
    space) gives a form that is valid too and whose message holds the new
    strings untrimmed; when they differ from the old ones, so do the two
    messages. *)
Theorem raw_contact_in_message (form : FormState) (n p : jsstring) :
  newErrors form = ∅ →
  trim n = trim (name form) →
  trim p = trim (phone form) →
  newErrors (set_contact n p form) = ∅
  ∧ includes (u16 "👤 Name: " ++ n ++ u16 "%0A") (msg (set_contact n p form)) = true
  ∧ includes (u16 "📞 Phone: " ++ p ++ u16 "%0A") (msg (set_contact n p form)) = true
  ∧ (n ≠ name form ∨ p ≠ phone form → msg (set_contact n p form) ≠ msg form).
Proof.
  intros Hvalid Hn Hp.
  apply newErrors_empty in Hvalid as (Hname & Hphone & Hpages).
  split; [|split; [|split]].
  - apply newErrors_empty. cbn [set_contact name phone pages].
    rewrite Hn, Hp. auto.
  - apply (in_order_includes _ _ _ (msg_contact_lines (set_contact n p form))).
    apply list_elem_of_here.
  - apply (in_order_includes _ _ _ (msg_contact_lines (set_contact n p form))).
    apply list_elem_of_further, list_elem_of_here.
  - intros Hdiff Heq.
    destruct (message_contact form) as [tail Htail].
    rewrite <- (set_contact_same form) in Heq at 2.
    rewrite !Htail in Heq.
    do 4 apply app_inv_head in Heq.
    rewrite <- Hn in Hname.
    apply (padded_inj _ _ _ _ _ _ Hn Hname) in Heq as [-> Heq]; [|reflexivity].
    apply app_inv_head, app_inv_tail in Heq.
    destruct Hdiff as [Hd | Hd]; congruence.
Qed.

Local Ltac literal := apply decode_segment; [vm_compute; reflexivity|].
Local Ltac field := apply decode_segment; [assumption|].
Local Ltac line := literal; field; apply decode_line_break.

(** X1: when none of the pieces holds a [%], the text parameter of the
    link decodes to the text of the order. *)
Lemma deep_link_round_trip (form : FormState) :
  percent_free form = true →
  URI.decodeURIComponent (text_of (whatsappUrl form)) = Some (text form).
Proof.
  unfold percent_free. rewrite !andb_true_iff.
  intros [[[[[[[[[[[? ?] ?] ?] ?] ?] ?] ?] ?] ?] ?] ?].
  unfold whatsappUrl. rewrite text_of_whatsappUrl.
  unfold msg, text, message.
  literal. do 2 apply decode_line_break.
  do 11 line.
  apply decode_line_break. field. do 2 apply decode_line_break.
  apply decode_all. vm_compute. reflexivity.
Qed.

(** C3: the form of the end-to-end scenario. Its deep link carries
    [msg] as it is; the [%] of "+20% markup" is not followed by two
    hexadecimal digits, so percent-decoding the text parameter fails and
    gives no text at all. With a name that holds an escape, "A%26B",
    decoding succeeds and gives the text of another order, the one of
    "A&B". *)
Theorem deep_link_text_not_encoded :
  text_of (whatsappUrl asha) = msg asha
  ∧ percent_free asha = false
  ∧ URI.decodeURIComponent (text_of (whatsappUrl asha)) = None
  ∧ URI.decodeURIComponent
      (text_of (whatsappUrl (set_plan (plan asha) false
                               (set_contact (u16 "A%26B") (phone asha) asha))))
    = Some (text (set_plan (plan asha) false
                    (set_contact (u16 "A&B") (phone asha) asha)))
  ∧ text (set_plan (plan asha) false (set_contact (u16 "A%26B") (phone asha) asha))
    ≠ text (set_plan (plan asha) false (set_contact (u16 "A&B") (phone asha) asha)).
Proof.
  split; [|split; [|split; [|split]]]; try (vm_compute; reflexivity).
  vm_compute. discriminate.
Qed.

End MessageProperties.

(** ** Instances *)

Lemma handleSubmit_blocked_witness :
  handleSubmit (λ _, []) (λ _, []) (world_of (set_checked [] (u16 "123") 0%float asha))
  = (tt, {| form := set_checked [] (u16 "123") 0%float asha; quote := None;
            errors := newErrors (set_checked [] (u16 "123") 0%float asha);
            isSubmitting := false; defaultPrevented := true;
            opened := []; timers := [] |}).
Proof.
  apply (handleSubmit_blocked (λ _, []) (λ _, [])
           (world_of (set_checked [] (u16 "123") 0%float asha))).
  left. rewrite newErrors_name. vm_compute. eexists. reflexivity.
Defined.

Lemma raw_contact_in_message_witness :
  newErrors (set_contact (u16 "  Asha ") (10 :: u16 "9876543210") asha) = ∅
  ∧ msg (λ _, []) (λ _, []) (set_contact (u16 "  Asha ") (10 :: u16 "9876543210") asha)
    ≠ msg (λ _, []) (λ _, []) asha.
Proof.
  assert (Hv : newErrors asha = ∅) by (vm_compute; reflexivity).
  destruct (raw_contact_in_message (λ _, []) (λ _, []) asha
              (u16 "  Asha ") (10 :: u16 "9876543210") Hv)
    as (H1 & _ & _ & H4).
  - vm_compute. reflexivity.
  - vm_compute. reflexivity.
  - split; [exact H1|]. apply H4. left. vm_compute. discriminate.
Defined.

(** * Further properties *)

(** ** Validation *)

Lemma SFcompare_antisym (x y : spec_float) :
  SFcompare x y = CompOpp <$> SFcompare y x.
Proof.
  destruct x as [sx|sx| |sx mx ex], y as [sy|sy| |sy my ey]; simpl;
    try reflexivity;
    try (destruct sx; reflexivity); try (destruct sy; reflexivity);
    try (destruct sx, sy; reflexivity).
  f_equal. destruct sx, sy; try reflexivity;
    rewrite (Z.compare_antisym ey ex);
    destruct (ey ?= ex)%Z eqn:He; simpl; try reflexivity;
    rewrite (Pos.compare_cont_antisym my mx Eq); simpl;
    rewrite ?CompOpp_involutive; reflexivity.
Qed.

Lemma SFcompare_refl (x : spec_float) :
  x ≠ S754_nan → SFcompare x x = Some Eq.
Proof.
  destruct x as [s|s| |s m e]; simpl; intros Hx;
    try (destruct s; reflexivity); [contradiction|].
  rewrite Z.compare_refl, Pos.compare_cont_refl. destruct s; reflexivity.
Qed.

Lemma is_nan_spec (x : float) :
  PrimFloat.is_nan x = true ↔ Prim2SF x = S754_nan.
Proof.
  unfold PrimFloat.is_nan. rewrite FloatAxioms.eqb_spec. unfold SFeqb.
  split.
  - destruct (Prim2SF x) eqn:Hx; try reflexivity;
      rewrite SFcompare_refl by discriminate; discriminate.
  - intros ->. reflexivity.
Qed.

(** The test of [validateForm] on a number is the negation of [1 <= x]. *)
Lemma not_below_one (x : float) :
  PrimFloat.is_nan x || (x <? 1)%float = negb (1 <=? x)%float.
Proof.
  rewrite FloatAxioms.ltb_spec, FloatAxioms.leb_spec. unfold SFltb, SFleb.
  rewrite (SFcompare_antisym (Prim2SF 1%float) (Prim2SF x)).
  destruct (PrimFloat.is_nan x) eqn:Hnan.
  - apply is_nan_spec in Hnan. rewrite Hnan. reflexivity.
  - simpl. destruct (SFcompare (Prim2SF x) (Prim2SF 1%float)) as [[ | | ]|] eqn:Hc;
      try reflexivity.
    exfalso. destruct (Prim2SF x) eqn:Hx; try discriminate.
    assert (PrimFloat.is_nan x = true) by (apply is_nan_spec, Hx). congruence.
Qed.

(** X2: the pages of a form are accepted exactly when [1 <= pages] holds of
    the two floats; the error message says what is tested. *)
Theorem pages_accepted_iff_at_least_one (form : FormState) :
  (newErrors form !! "pages"%string = None ↔ (1 <=? pages form)%float = true)
  ∧ (newErrors form !! "pages"%string = Some (Some (u16 "Pages must be at least 1."))
     ↔ (1 <=? pages form)%float = false).
Proof.
  rewrite newErrors_pages, not_below_one.
  destruct (1 <=? pages form)%float; simpl; split; split;
    congruence || discriminate.
Qed.

(** X3: validation reads the name, the phone and the pages only: forms that
    agree on the three get the same errors, and no other key is ever
    reported. *)
Theorem validation_reads_three_fields (f1 f2 : FormState) :
  (name f1 = name f2 → phone f1 = phone f2 → pages f1 = pages f2 →
   newErrors f1 = newErrors f2)
  ∧ (∀ k : string,
       k ≠ "name"%string → k ≠ "phone"%string → k ≠ "pages"%string →
       newErrors f1 !! k = None)
  ∧ (∀ k : string, newErrors f1 !! k ≠ Some None).
Proof.
  split; [|split].
  - unfold newErrors. intros -> -> ->. reflexivity.
  - intros k Hn Hp Hg. unfold newErrors.
    destruct (PrimFloat.is_nan _ || _), (negb _), (trim (name f1));
      rewrite ?lookup_insert_ne by congruence; apply lookup_empty.
  - intros k.
    destruct (decide (k = "name"%string)) as [->|Hn].
    { rewrite newErrors_name. destruct (trim (name f1)); discriminate. }
    destruct (decide (k = "phone"%string)) as [->|Hp].
    { rewrite newErrors_phone. destruct (test_ten_digits _); discriminate. }
    destruct (decide (k = "pages"%string)) as [->|Hg].
    { rewrite newErrors_pages. destruct (PrimFloat.is_nan _ || _); discriminate. }
    unfold newErrors.
    destruct (PrimFloat.is_nan _ || _), (negb _), (trim (name f1));
      rewrite ?lookup_insert_ne by congruence; rewrite lookup_empty; discriminate.
Qed.

(** ** The deep link *)

Lemma in_order_elem (parts : list jsstring) (s p : jsstring) :
  in_order parts s → p ∈ parts → ∃ a b, s = a ++ p ++ b.
Proof.
  revert s. induction parts as [|q ps IH]; intros s Hs Hp.
  - inversion Hp.
  - destruct Hs as (a & b & -> & Hps).
    apply elem_of_cons in Hp as [-> | Hp]; [eauto|].
    destruct (IH b Hps Hp) as (a' & b' & ->).
    exists (a ++ q ++ a'), b'. rewrite <- !app_assoc. reflexivity.
Qed.

(** A [%] before a character that is not a hexadecimal digit makes the
    whole string undecodable, wherever it stands. *)
Lemma tokens_bad_escape (a : jsstring) (x y : N) (b : jsstring) :
  URI.hex x = None → URI.tokens (a ++ 37 :: x :: y :: b) = None.
Proof.
  intros Hx.
  induction a as [a IH] using (induction_ltof1 _ (@length N)).
  unfold ltof in IH.
  destruct a as [|c a]; simpl.
  - rewrite Hx. reflexivity.
  - destruct (c =? 37) eqn:Hc.
    + destruct a as [|h1 [|h2 a]]; simpl.
      * destruct (URI.hex x); reflexivity.
      * destruct (URI.hex h1); reflexivity.
      * rewrite (IH a) by (simpl; lia).
        destruct (URI.hex h1), (URI.hex h2); reflexivity.
    + rewrite (IH a) by (simpl; lia). reflexivity.
Qed.

Section LinkProperties.

Variable Number_toString_other : float → jsstring.
Variable Object_toString : jsstring → jsstring.

Abbreviation ToString := (ToString Number_toString_other Object_toString).
Abbreviation Number_toString := (Number_toString Number_toString_other).
Abbreviation msg := (msg Number_toString_other Object_toString).
Abbreviation text := (text Number_toString_other Object_toString).
Abbreviation percent_free := (percent_free Number_toString_other Object_toString).
Abbreviation whatsappUrl := (whatsappUrl Number_toString_other Object_toString).
Abbreviation handleSubmit := (handleSubmit Number_toString_other Object_toString).

Lemma msg_lines (form : FormState) :
  in_order
    [ u16 "*NotebookComplete Order*" ++ u16 "%0A";
      u16 "👤 Name: " ++ name form ++ u16 "%0A";
      u16 "📞 Phone: " ++ phone form ++ u16 "%0A";
      u16 " 🏠 Address: " ++ or_else (address form) (u16 "—") ++ u16 "%0A";
      u16 " 🏫 College: " ++ or_else (college form) (u16 "—") ++ u16 "%0A";
      u16 "📚 Class: " ++ or_else (className form) (u16 "—") ++ u16 "%0A";
      u16 "📘 Subject: " ++ or_else (subject form) (u16 "—") ++ u16 "%0A";
      u16 "📄 Pages: " ++ Number_toString (pages form) ++ u16 "%0A";
      u16 "🎨 Diagrams/Printouts: " ++ diagramsMsg form ++ u16 "%0A";
      u16 "💰 Plan: " ++ plan form ++ u16 "%0A";
      u16 "📝 Notes: " ++ or_else (notes form) (u16 "—") ++ u16 "%0A";
      u16 "💵 Estimated Price: ₹" ++ ToString (estimatedPrice form) ++ u16 "%0A";
      fileMsg form ++ u16 "%0A";
      u16 "Please confirm availability and final quote." ]
    (msg form).
Proof.
  unfold msg, message.
  apply in_order_here2, in_order_skip.
  do 11 apply in_order_here3.
  apply in_order_skip, in_order_here2, in_order_skip, in_order_last.
Qed.

(** X4: with diagrams requested, the text parameter of the deep link is never
    valid percent-encoding, whatever else the form holds: the fixed
    "+20% markup" of the diagrams line has a [%] before a space. *)
Theorem diagrams_link_never_decodes (form : FormState) :
  withDiagrams form = true →
  URI.decodeURIComponent (text_of (whatsappUrl form)) = None.
Proof.
  intros Hd. unfold whatsappUrl. rewrite text_of_whatsappUrl.
  destruct (in_order_elem _ _
              (u16 "🎨 Diagrams/Printouts: " ++ diagramsMsg form ++ u16 "%0A")
              (msg_lines form)) as (a & b & Hmsg).
  { do 8 apply list_elem_of_further. apply list_elem_of_here. }
  rewrite Hmsg. unfold diagramsMsg. rewrite Hd.
  change (u16 "YES (+20% markup included)")
    with (u16 "YES (+20" ++ 37 :: 32 :: 109 :: u16 "arkup included)").
  rewrite <- !app_assoc, <- !app_comm_cons, !app_assoc.
  unfold URI.decodeURIComponent.
  rewrite tokens_bad_escape by reflexivity. reflexivity.
Qed.

(** X5: a valid form is sent and the button comes back. [handleSubmit]
    opens one window, on the WhatsApp address of the recipient with [msg]
    as its text, in a new tab; it sets a single timer of 1000 ms, and when
    that timer fires [isSubmitting] is false again, all else untouched. *)
Theorem valid_submit_then_timeout (w : World) :
  newErrors (form w) = ∅ →
  let w1 := snd (handleSubmit w) in
  opened w1 = opened w ++ [(u16 "https://wa.me/911234567890?text=" ++ msg (form w), u16 "_blank")]
  ∧ isSubmitting w1 = true
  ∧ timers w1 = timers w ++ [(reset_isSubmitting, 1000)]
  ∧ snd (run_callback reset_isSubmitting w1)
    = {| form := form w; quote := quote w; errors := ∅; isSubmitting := false;
         defaultPrevented := true; opened := opened w1; timers := timers w1 |}.
Proof.
  intros Hv. rewrite (handleSubmit_valid _ _ w Hv). simpl.
  repeat split.
Qed.

End LinkProperties.

Lemma deep_link_round_trip_witness :
  URI.decodeURIComponent
    (text_of (whatsappUrl (λ _, []) (λ _, []) (set_plan (plan asha) false ravi)))
  = Some (text (λ _, []) (λ _, []) (set_plan (plan asha) false ravi)).
Proof.
  apply (deep_link_round_trip (λ _, []) (λ _, []) (set_plan (plan asha) false ravi)).
  vm_compute. reflexivity.
Defined.

Lemma diagrams_link_never_decodes_witness :
  URI.decodeURIComponent (text_of (whatsappUrl (λ _, []) (λ _, []) ravi)) = None.
Proof.
  apply (diagrams_link_never_decodes (λ _, []) (λ _, []) ravi). reflexivity.
Defined.

Lemma valid_submit_then_timeout_witness :
  isSubmitting (snd (handleSubmit (λ _, []) (λ _, []) (world_of asha))) = true.
Proof.
  assert (Hv : newErrors (form (world_of asha)) = ∅) by (vm_compute; reflexivity).
  exact (proj1 (proj2 (valid_submit_then_timeout (λ _, []) (λ _, []) (world_of asha) Hv))).
Defined.

(** ** The handlers *)

Lemma after_quote_effect (h : M unit) (w : World) :
  snd ((h ;; quote_effect) w)
  = {| form := form (snd (h w)); quote := Some (estimatedPrice (form (snd (h w))));
       errors := errors (snd (h w)); isSubmitting := isSubmitting (snd (h w));
       defaultPrevented := defaultPrevented (snd (h w));
       opened := opened (snd (h w)); timers := timers (snd (h w)) |}.
Proof. unfold bind. destruct (h w) as [[] w1]. reflexivity. Qed.

Lemma PRICING_PLANS_recognized (p : PricingPlan.t) :
  p ∈ PRICING_PLANS → is_Some (PLAN_PRICES !! PricingPlan.value p).
Proof.
  unfold PRICING_PLANS. rewrite !elem_of_cons, elem_of_nil.
  intros [-> | [-> | [-> | [-> | []]]]]; vm_compute; eauto.
Qed.

Section HandlerProperties.

Variable StringToNumber : jsstring → float.
Variable Number_toString_other : float → jsstring.
Variable Object_toString : jsstring → jsstring.

Abbreviation handleChange := (handleChange StringToNumber).
Abbreviation Number_of_value := (Number_of_value StringToNumber).
Abbreviation step := (step StringToNumber Number_toString_other Object_toString).
Abbreviation reachable :=
  (reachable StringToNumber Number_toString_other Object_toString).

(** The state after [handleChange]: the form with the one field assigned,
    the error of that field set to null, and nothing else. *)
Lemma handleChange_world (e : ChangeEvent) (w : World) :
  snd (handleChange e w)
  = {| form :=
         match target e with
         | input_file => assign_file input_file (head (target_files e)) (form w)
         | input_pages => assign_pages (Number_of_value (target_value e)) (form w)
         | c => assign_text c (target_value e) (form w)
         end;
       quote := quote w;
       errors := <[target_name (target e) := None]> (errors w);
       isSubmitting := isSubmitting w;
       defaultPrevented := defaultPrevented w;
       opened := opened w; timers := timers w |}.
Proof.
  destruct e as [c v fs]. unfold handleChange, bind, updateErrors, setForm.
  destruct c, fs; reflexivity.
Qed.

Lemma handleSubmit_invalid (w : World) :
  newErrors (form w) ≠ ∅ →
  handleSubmit Number_toString_other Object_toString w
  = (tt, {| form := form w; quote := quote w; errors := newErrors (form w);
            isSubmitting := isSubmitting w; defaultPrevented := true;
            opened := opened w; timers := timers w |}).
Proof.
  intros Herr. unfold handleSubmit, validateForm, bind, ret,
    preventDefault, getForm, setErrors.
  cbn [form quote errors isSubmitting defaultPrevented opened timers].
  rewrite bool_decide_eq_false_2; [reflexivity|].
  intros Hsize. apply map_size_empty_iff in Hsize. contradiction.
Qed.

(** X6: editing any control but the plan select leaves the quote as it is,
    and [handleChange] opens no window, sets no timer and does not touch
    [isSubmitting]. *)
Theorem handleChange_keeps_quote (e : ChangeEvent) (w : World) :
  target e ≠ select_plan →
  estimatedPrice (form (snd (handleChange e w))) = estimatedPrice (form w)
  ∧ opened (snd (handleChange e w)) = opened w
  ∧ timers (snd (handleChange e w)) = timers w
  ∧ isSubmitting (snd (handleChange e w)) = isSubmitting w.
Proof.
  intros Hc. rewrite handleChange_world. cbn [form opened timers isSubmitting].
  split; [|auto].
  apply estimatedPrice_deps; destruct (target e); try reflexivity; contradiction.
Qed.

(** X7: errors stay until the next submit, except the one of the field being
    edited. After a submit, a change of one control sets the error of that
    control to null, whether or not the new value is valid, and leaves the
    errors of the other fields as validation set them. *)
Theorem handleChange_clears_one_error (e : ChangeEvent) (w : World) :
  errors (snd (handleChange e (snd (handleSubmit Number_toString_other Object_toString w))))
    !! target_name (target e) = Some None
  ∧ ∀ k : string,
      k ≠ target_name (target e) →
      errors (snd (handleChange e (snd (handleSubmit Number_toString_other Object_toString w)))) !! k
      = newErrors (form w) !! k.
Proof.
  rewrite handleChange_world. cbn [errors].
  assert (He : errors (snd (handleSubmit Number_toString_other Object_toString w))
               = newErrors (form w)).
  { destruct (decide (newErrors (form w) = ∅)) as [Hv|Hv].
    - rewrite (handleSubmit_valid _ _ w Hv). symmetry. exact Hv.
    - rewrite (handleSubmit_invalid w Hv). reflexivity. }
  rewrite He. split.
  - apply lookup_insert_eq.
  - intros k Hk. apply lookup_insert_ne. congruence.
Qed.

(** X8: emptying the pages input stores the number 0, so the next submit is
    blocked with the pages error and opens nothing. *)
Theorem cleared_pages_block_submit (e : ChangeEvent) (w : World) :
  target e = input_pages →
  target_value e = [] →
  pages (form (snd (handleChange e w))) = 0%float
  ∧ newErrors (form (snd (handleChange e w))) !! "pages"%string
    = Some (Some (u16 "Pages must be at least 1."))
  ∧ opened (snd (handleSubmit Number_toString_other Object_toString (snd (handleChange e w))))
    = opened w
  ∧ isSubmitting (snd (handleSubmit Number_toString_other Object_toString (snd (handleChange e w))))
    = isSubmitting w.
Proof.
  intros Ht Hv.
  assert (Hp : pages (form (snd (handleChange e w))) = 0%float).
  { rewrite handleChange_world, Ht, Hv. reflexivity. }
  assert (He : newErrors (form (snd (handleChange e w))) !! "pages"%string
               = Some (Some (u16 "Pages must be at least 1."))).
  { rewrite newErrors_pages, Hp. reflexivity. }
  split; [exact Hp|]. split; [exact He|].
  rewrite handleSubmit_invalid.
  - rewrite handleChange_world. auto.
  - intros Hempty. rewrite Hempty, lookup_empty in He. discriminate.
Qed.

(** X9: the file line follows the file input. After a change of the file
    input the message names the first file chosen and asks to upload it in
    the chat, or, with no file chosen, has the "None selected" line. *)
Theorem chosen_file_named_in_message (e : ChangeEvent) (w : World) :
  target e = input_file →
  includes
    (match target_files e with
     | f :: _ =>
         u16 "%0A📎 File: " ++ File.name f
         ++ u16 ". *Please upload this file in our chat after sending this message.*%0A"
     | [] =>
         u16 "%0A📎 File: None selected. *Please upload your syllabus/content in our chat.*%0A"
     end)
    (msg Number_toString_other Object_toString (form (snd (handleChange e w))))
  = true.
Proof.
  intros Ht. rewrite handleChange_world, Ht. cbn [form].
  set (f' := assign_file input_file (head (target_files e)) (form w)).
  assert (Hfile : fileMsg f'
                  = match target_files e with
                    | f :: _ =>
                        u16 "📎 File: " ++ File.name f
                        ++ u16 ". *Please upload this file in our chat after sending this message.*"
                    | [] =>
                        u16 "📎 File: None selected. *Please upload your syllabus/content in our chat.*"
                    end).
  { unfold fileMsg, f'. simpl. destruct (target_files e); reflexivity. }
  assert (Hin : in_order [u16 "%0A" ++ fileMsg f' ++ u16 "%0A"]
                  (msg Number_toString_other Object_toString f')).
  { unfold msg, message.
    do 36 apply in_order_skip. apply in_order_here3. exact I. }
  apply (in_order_includes _ _ _ Hin). rewrite Hfile.
  destruct (target_files e);
    [change (u16 "%0A📎 File: None selected. *Please upload your syllabus/content in our chat.*%0A")
       with (u16 "%0A" ++ u16 "📎 File: None selected. *Please upload your syllabus/content in our chat.*" ++ u16 "%0A")
    |change (u16 "%0A📎 File: ") with (u16 "%0A" ++ u16 "📎 File: ");
     change (u16 ". *Please upload this file in our chat after sending this message.*%0A")
       with (u16 ". *Please upload this file in our chat after sending this message.*" ++ u16 "%0A");
     rewrite <- !app_assoc];
    apply list_elem_of_here.
Qed.

(** X10: a pricing card charges what it shows. Clicking a card of
    [PRICING_PLANS] selects a key of [PLAN_PRICES], and with no diagrams
    the quote displayed after the next render, behind its rupee sign, is
    the price printed on the card. *)
Theorem card_price_is_quote (p : PricingPlan.t) (w : World) :
  p ∈ PRICING_PLANS →
  withDiagrams (form w) = false →
  plan (form (snd ((PricingCard_onClick p ;; quote_effect) w))) = PricingPlan.value p
  ∧ is_Some (PLAN_PRICES !! PricingPlan.value p)
  ∧ (λ v, u16 "₹" ++ ToString Number_toString_other Object_toString v)
      <$> quote (snd ((PricingCard_onClick p ;; quote_effect) w))
    = Some (PricingPlan.price p).
Proof.
  intros Hp Hd. rewrite after_quote_effect.
  unfold PricingCard_onClick, setForm. cbn [snd form quote].
  split; [reflexivity|]. split; [apply PRICING_PLANS_recognized, Hp|].
  unfold estimatedPrice. cbn [set_plan plan withDiagrams]. rewrite Hd.
  revert Hp. unfold PRICING_PLANS. rewrite !elem_of_cons, elem_of_nil.
  intros [-> | [-> | [-> | [-> | []]]]]; vm_compute; reflexivity.
Qed.

Lemma whatsappUrl_unfold (f : FormState) :
  whatsappUrl Number_toString_other Object_toString f
  = u16 "https://wa.me/911234567890?text="
    ++ msg Number_toString_other Object_toString f.
Proof. unfold whatsappUrl. reflexivity. Qed.

(** What holds of every state the component gets into. *)
Lemma reachable_invariant (w : World) :
  reachable w →
  is_Some (PLAN_PRICES !! plan (form w))
  ∧ quote w = Some (estimatedPrice (form w))
  ∧ (isSubmitting w = true → timers w ≠ [])
  ∧ Forall (λ o, o.2 = u16 "_blank"
                 ∧ ∃ f, newErrors f = ∅
                        ∧ o.1 = whatsappUrl Number_toString_other Object_toString f)
      (opened w).
Proof.
  induction 1 as [|w ev w' Hw (Hplan & Hquote & Htimer & Hopened) Hstep].
  - split; [|split; [|split]].
    + vm_compute. eauto.
    + reflexivity.
    + discriminate.
    + apply Forall_nil_2.
  - destruct Hstep as [w e Hsel | w checked | w p Hp | w | w f delay rest Hrest];
      rewrite after_quote_effect; cbn [form quote isSubmitting timers opened].
    + rewrite handleChange_world. cbn [form isSubmitting timers opened].
      split; [|split; [reflexivity|split; assumption]].
      destruct (target e); try exact Hplan. apply Hsel. reflexivity.
    + unfold handleDiagramToggle, setForm. cbn [snd form isSubmitting timers opened].
      split; [exact Hplan|split; [reflexivity|split; assumption]].
    + unfold PricingCard_onClick, setForm. cbn [snd form isSubmitting timers opened].
      split; [|split; [reflexivity|split; assumption]].
      apply PRICING_PLANS_recognized, Hp.
    + destruct (decide (newErrors (form w) = ∅)) as [Hv|Hv].
      * rewrite (handleSubmit_valid _ _ w Hv). cbn [snd form isSubmitting timers opened].
        split; [exact Hplan|split; [reflexivity|split]].
        { intros _. destruct (timers w); discriminate. }
        { apply Forall_app. split; [assumption|].
          apply Forall_singleton. split; [reflexivity|]. eauto. }
      * rewrite (handleSubmit_invalid w Hv). cbn [snd form isSubmitting timers opened].
        split; [exact Hplan|split; [reflexivity|split; assumption]].
    + destruct f. unfold run_callback, setIsSubmitting.
      cbn [snd form isSubmitting timers opened].
      split; [exact Hplan|split; [reflexivity|split; [discriminate|assumption]]].
Qed.

(** X11: the plan is always a key of [PLAN_PRICES]. In every state reached by
    changes, toggles, card clicks, submits and timeouts, the fallback price
    is not in play: the quote is the plan's price, or that price times 1.2
    rounded, read from the table. *)
Theorem reachable_plan_recognized (w : World) :
  reachable w →
  ∃ basePrice,
    PLAN_PRICES !! plan (form w) = Some basePrice
    ∧ estimatedPrice (form w)
      = VNumber (if withDiagrams (form w)
                 then Num.Math_round (basePrice * 0x1.3333333333333p+0)%float
                 else basePrice).
Proof.
  intros Hw. destruct (reachable_invariant w Hw) as ([x Hx] & _).
  exists x. split; [exact Hx|].
  unfold estimatedPrice, PLAN_PRICES_get. rewrite Hx. simpl.
  destruct (withDiagrams (form w)); reflexivity.
Qed.

(** X12: the quote on display is the price of the order. In every reachable
    state [quote] holds [estimatedPrice] of the current form, the number
    that [handleSubmit] writes into the message. *)
Theorem reachable_quote_in_sync (w : World) :
  reachable w →
  quote w = Some (estimatedPrice (form w))
  ∧ includes
      (u16 "💵 Estimated Price: ₹"
       ++ ToString Number_toString_other Object_toString (estimatedPrice (form w))
       ++ u16 "%0A")
      (msg Number_toString_other Object_toString (form w)) = true.
Proof.
  intros Hw. destruct (reachable_invariant w Hw) as (_ & Hq & _).
  split; [exact Hq|].
  apply (in_order_includes _ _ _ (msg_lines _ _ (form w))).
  do 11 apply list_elem_of_further. apply list_elem_of_here.
Qed.

(** X13: the submit button is never left disabled. Whenever [isSubmitting] is
    true a timer is pending, and the timer that fires sets it to false. *)
Theorem reachable_submitting_has_timer (w : World) :
  reachable w →
  isSubmitting w = true →
  ∃ f delay rest,
    timers w = (f, delay) :: rest
    ∧ isSubmitting (snd (run_callback f w)) = false.
Proof.
  intros Hw Hs. destruct (reachable_invariant w Hw) as (_ & _ & Ht & _).
  specialize (Ht Hs). destruct (timers w) as [|[f delay] rest]; [contradiction|].
  exists f, delay, rest. split; [reflexivity|]. destruct f. reflexivity.
Qed.

(** X14: nothing but valid orders goes out. Every window the component has
    opened is a new tab on the WhatsApp address, carrying the message of a
    form that passed validation. *)
Theorem reachable_opened_are_valid_orders (w : World) (url tgt : jsstring) :
  reachable w →
  (url, tgt) ∈ opened w →
  tgt = u16 "_blank"
  ∧ ∃ f, newErrors f = ∅
         ∧ url = u16 "https://wa.me/911234567890?text="
                 ++ msg Number_toString_other Object_toString f.
Proof.
  intros Hw Hin. destruct (reachable_invariant w Hw) as (_ & _ & _ & Ho).
  rewrite Forall_forall in Ho.
  destruct (Ho (url, tgt) Hin) as (Htgt & f & Hvalid & Hurl).
  split; [exact Htgt|]. exists f. split; [exact Hvalid|].
  rewrite <- (whatsappUrl_unfold f). exact Hurl.
Qed.

End HandlerProperties.

(** ** Instances *)

Lemma session_filled_reachable :
  reachable (λ _, PrimFloat.nan) (λ _, []) (λ _, []) session_filled.
Proof.
  unfold session_filled.
  eapply reachable_step; [eapply reachable_step; [apply reachable_initial|]|].
  - apply (step_change _ _ _ _ (typing input_name (u16 "Asha"))). discriminate.
  - apply (step_change _ _ _ _ (typing input_phone (u16 "9876543210"))). discriminate.
Qed.

Lemma session_sent_reachable :
  reachable (λ _, PrimFloat.nan) (λ _, []) (λ _, []) session_sent.
Proof.
  unfold session_sent.
  eapply reachable_step; [apply session_filled_reachable|]. apply step_submit.
Qed.

Lemma handleChange_keeps_quote_witness :
  estimatedPrice
    (form (snd (handleChange (λ _, PrimFloat.nan) (typing input_name (u16 "Asha"))
                  (world_of ravi))))
  = estimatedPrice ravi.
Proof.
  refine (proj1 (handleChange_keeps_quote (λ _, PrimFloat.nan)
                   (typing input_name (u16 "Asha")) (world_of ravi) _)).
  discriminate.
Defined.

Lemma cleared_pages_block_submit_witness :
  pages (form (snd (handleChange (λ _, PrimFloat.nan) (typing input_pages [])
                      (world_of asha))))
  = 0%float.
Proof.
  refine (proj1 (cleared_pages_block_submit (λ _, PrimFloat.nan) (λ _, []) (λ _, [])
                   (typing input_pages []) (world_of asha) _ _));
    reflexivity.
Defined.

Lemma chosen_file_named_in_message_witness :
  includes
    (match target_files (typing input_file []) with
     | f :: _ =>
         u16 "%0A📎 File: " ++ File.name f
         ++ u16 ". *Please upload this file in our chat after sending this message.*%0A"
     | [] =>
         u16 "%0A📎 File: None selected. *Please upload your syllabus/content in our chat.*%0A"
     end)
    (msg (λ _, []) (λ _, [])
       (form (snd (handleChange (λ _, PrimFloat.nan) (typing input_file [])
                     (world_of ravi)))))
  = true.
Proof.
  exact (chosen_file_named_in_message (λ _, PrimFloat.nan) (λ _, []) (λ _, [])
           (typing input_file []) (world_of ravi) eq_refl).
Defined.

Lemma card_price_is_quote_witness :
  plan (form (snd ((PricingCard_onClick
                      {| PricingPlan.title := u16 "3 Months";
                         PricingPlan.price := u16 "₹499";
                         PricingPlan.details := u16 "Up to 3 books/3 Assignment (per month) · save ₹100";
                         PricingPlan.discount := u16 "-25%";
                         PricingPlan.value := u16 "3-Month (₹499)" |}
                    ;; quote_effect) initial)))
  = u16 "3-Month (₹499)".
Proof.
  refine (proj1 (card_price_is_quote (λ _, []) (λ _, []) _ initial _ _)).
  - unfold PRICING_PLANS. apply list_elem_of_further, list_elem_of_here.
  - reflexivity.
Defined.

Lemma reachable_plan_recognized_witness :
  ∃ basePrice, PLAN_PRICES !! plan (form session_sent) = Some basePrice.
Proof.
  destruct (reachable_plan_recognized _ _ _ session_sent session_sent_reachable)
    as (x & Hx & _).
  exists x. exact Hx.
Defined.

Lemma reachable_quote_in_sync_witness :
  quote session_sent = Some (estimatedPrice (form session_sent)).
Proof.
  exact (proj1 (reachable_quote_in_sync _ _ _ session_sent session_sent_reachable)).
Defined.

Lemma reachable_submitting_has_timer_witness :
  ∃ f delay rest, timers session_sent = (f, delay) :: rest.
Proof.
  assert (Hs : isSubmitting session_sent = true) by (vm_compute; reflexivity).
  destruct (reachable_submitting_has_timer _ _ _ session_sent
              session_sent_reachable Hs) as (f & delay & rest & Ht & _).
  exists f, delay, rest. exact Ht.
Defined.

Lemma reachable_opened_are_valid_orders_witness :
  ∃ url, (url, u16 "_blank") ∈ opened session_sent
         ∧ ∃ f, newErrors f = ∅
                ∧ url = u16 "https://wa.me/911234567890?text=" ++ msg (λ _, []) (λ _, []) f.
Proof.
  assert (Hin : (whatsappUrl (λ _, []) (λ _, []) (form session_filled), u16 "_blank")
                ∈ opened session_sent).
  { assert (Hv : newErrors (form session_filled) = ∅) by (vm_compute; reflexivity).
    unfold session_sent. rewrite after_quote_effect. cbn [opened].
    rewrite (handleSubmit_valid _ _ session_filled Hv). cbn [snd opened].
    apply elem_of_app. right. apply list_elem_of_here. }
  exists (whatsappUrl (λ _, []) (λ _, []) (form session_filled)).
  split; [exact Hin|].
  exact (proj2 (reachable_opened_are_valid_orders _ _ _ session_sent _ _
                  session_sent_reachable Hin)).
Defined.
